(** * VCHASNO analytics: the Lambda handler and its command-line client

    A shallow embedding of [lambda_handler.py] and [analyze_cli.py].

    Python values that travel as JSON are the inductive [pyval]; code with
    effects (the clock, the random generator, S3, CloudWatch, HTTP, the
    standard streams) is a state-and-exception computation over an explicit
    world.  Everything the two programs take from the interpreter or from a
    library and that is not decided by the repository (the JSON decoder, the
    printing of floats, [repr], the local-time conversion, the process
    environment) is collected in the record [Runtime]. *)

From Stdlib Require Import ZArith QArith Qround Qpower List String Ascii Bool Lia Lqa
  DecimalString.
Import ListNotations.

Open Scope list_scope.
Open Scope string_scope.

Set Implicit Arguments.
Set Warnings "-register-all".

(** ** Python values *)

(** The values [json.loads] produces and [json.dumps] accepts.  [VNone] is
    both Python's [None] and JSON's [null].  A [str] is a sequence of code
    points; the model covers the code points U+0000..U+00FF, one per
    [ascii].  A [float] is the rational a binary64 number denotes;
    infinities and NaN have no counterpart, and the arithmetic on floats
    rounds (see [round_double]).  A [dict] keeps its insertion order, as in
    Python. *)
Inductive pyval : Type :=
| VNone
| VBool (b : bool)
| VInt (z : Z)
| VFloat (q : Q)
| VStr (s : string)
| VList (l : list pyval)
| VDict (d : list (string * pyval)).

Definition pydict := list (string * pyval).

(** [d.get(k)] on a dict: the value bound to [k], if any. *)
Fixpoint dict_lookup (k : string) (d : pydict) : option pyval :=
  match d with
  | [] => None
  | (k', v) :: d' => if String.eqb k k' then Some v else dict_lookup k d'
  end.

(** [d.get(k, default)]. *)
Definition dict_get (d : pydict) (k : string) (default : pyval) : pyval :=
  match dict_lookup k d with
  | Some v => v
  | None => default
  end.

(** Python truth value testing, as used by [if not document_id] and
    [if result]. *)
Definition truthy (v : pyval) : bool :=
  match v with
  | VNone => false
  | VBool b => b
  | VInt z => negb (Z.eqb z 0)
  | VFloat q => negb (Qeq_bool q 0)
  | VStr s => negb (String.eqb s "")
  | VList l => match l with [] => false | _ => true end
  | VDict d => match d with [] => false | _ => true end
  end.

(** [type(v).__name__]. *)
Definition type_name (v : pyval) : string :=
  match v with
  | VNone => "NoneType"
  | VBool _ => "bool"
  | VInt _ => "int"
  | VFloat _ => "float"
  | VStr _ => "str"
  | VList _ => "list"
  | VDict _ => "dict"
  end.

(** ** Strings *)

(** [str(z)] for an [int]. *)
Definition str_of_Z (z : Z) : string := NilZero.string_of_int (Z.to_int z).

Fixpoint repeat_string (s : string) (n : nat) : string :=
  match n with
  | O => ""
  | S n' => s ++ repeat_string s n'
  end.

(** ["%0<width>d" % n] for a natural number. *)
Definition zero_pad (width : nat) (n : N) : string :=
  let digits := NilZero.string_of_uint (N.to_uint n) in
  repeat_string "0" (width - String.length digits) ++ digits.

(** [sep.join(parts)]. *)
Fixpoint join (sep : string) (parts : list string) : string :=
  match parts with
  | [] => ""
  | [p] => p
  | p :: rest => p ++ sep ++ join sep rest
  end.

(** [needle in haystack] for two strings. *)
Fixpoint contains (needle haystack : string) : bool :=
  String.prefix needle haystack ||
  match haystack with
  | EmptyString => false
  | String _ rest => contains needle rest
  end.

(** ** Floats *)

(** Python's [float] is IEEE 754 binary64: 53 significant bits, exponents
    from -1022, results rounded to the nearest representable number, ties
    to the one with an even significand.  Numbers too large for the format
    do not occur in the programs and are not treated apart. *)

Definition pow2 (e : Z) : Q := (2 ^ e)%Q.

(** For a positive [q], the [e] with [2^e <= q < 2^(e+1)]. *)
Definition floor_log2 (q : Q) : Z :=
  let e := (Z.log2 (Qnum q) - Z.log2 (Z.pos (Qden q)))%Z in
  if Qle_bool (pow2 e) q then e else (e - 1)%Z.

(** The nearest integer, the even one of two that are equally near. *)
Definition round_half_even (q : Q) : Z :=
  let f := Qfloor q in
  match Qcompare (q - inject_Z f) (1 # 2) with
  | Lt => f
  | Gt => (f + 1)%Z
  | Eq => if Z.even f then f else (f + 1)%Z
  end.

(** The distance between the binary64 numbers around a positive [q]. *)
Definition quantum (q : Q) : Q := pow2 (Z.max (floor_log2 q) (-1022) - 52).

Definition round_magnitude (q : Q) : Q :=
  (inject_Z (round_half_even (q / quantum q)) * quantum q)%Q.

(** The binary64 number nearest to [q]. *)
Definition round_double (q : Q) : Q :=
  Qred (match Qcompare q 0 with
        | Eq => 0
        | Gt => round_magnitude q
        | Lt => - round_magnitude (- q)
        end)%Q.

(** The float a decimal literal of the source denotes. *)
Definition float_literal (q : Q) : Q := round_double q.

(** [x + y], [x - y] and [x * y] on floats. *)
Definition float_add (x y : Q) : Q := round_double (x + y).
Definition float_sub (x y : Q) : Q := round_double (x - y).
Definition float_mul (x y : Q) : Q := round_double (x * y).

Arguments round_double : simpl never.
Arguments float_literal : simpl never.
Arguments float_add : simpl never.
Arguments float_sub : simpl never.
Arguments float_mul : simpl never.

(** ** [json.dumps] *)

Definition dquote : string := String (ascii_of_N 34) "".

Definition hex_digit (n : N) : ascii :=
  if (n <? 10)%N then ascii_of_N (48 + n) else ascii_of_N (87 + n).

(** One character under [ensure_ascii=True]: the table [ESCAPE_DCT] of the
    encoder, and [\u00xx] for what is left outside [' '..'~']. *)
Definition escape_char (c : ascii) : string :=
  let n := N_of_ascii c in
  if (n =? 34)%N then "\" ++ dquote
  else if (n =? 92)%N then "\\"
  else if (n =? 10)%N then "\n"
  else if (n =? 13)%N then "\r"
  else if (n =? 9)%N then "\t"
  else if (n =? 8)%N then "\b"
  else if (n =? 12)%N then "\f"
  else if ((32 <=? n) && (n <=? 126))%N then String c ""
  else "\u00" ++ String (hex_digit (n / 16)) (String (hex_digit (n mod 16)) "").

Fixpoint escape_string (s : string) : string :=
  match s with
  | EmptyString => ""
  | String c rest => escape_char c ++ escape_string rest
  end.

(** [py_encode_basestring_ascii]. *)
Definition encode_string (s : string) : string :=
  dquote ++ escape_string s ++ dquote.

Definition newline : string := String (ascii_of_N 10) "".

Section Dumps.

(** [float.__repr__], which the encoder calls on a float. *)
Variable float_repr : Q -> string.

(** The [indent] argument of [json.dumps]: [None], or a number of spaces. *)
Variable indent : option nat.

Definition newline_indent (width level : nat) : string :=
  newline ++ repeat_string " " (width * level).

(** What the encoder yields between the brackets of a non-empty container
    at nesting depth [level], from its encoded items. *)
Definition enclose (level : nat) (items : list string) : string :=
  match indent with
  | None => join ", " items
  | Some width =>
      newline_indent width (S level)
      ++ join ("," ++ newline_indent width (S level)) items
      ++ newline_indent width level
  end.

Fixpoint dumps_at (level : nat) (v : pyval) : string :=
  match v with
  | VNone => "null"
  | VBool true => "true"
  | VBool false => "false"
  | VInt z => str_of_Z z
  | VFloat q => float_repr q
  | VStr s => encode_string s
  | VList [] => "[]"
  | VList l => "[" ++ enclose level (map (dumps_at (S level)) l) ++ "]"
  | VDict [] => "{}"
  | VDict d =>
      "{" ++ enclose level
               (map (fun kv => let '(k, x) := kv in
                               encode_string k ++ ": " ++ dumps_at (S level) x) d)
          ++ "}"
  end.

End Dumps.

(** ** Dates *)

(** A naive [datetime], as [datetime.utcnow()] returns it. *)
Record datetime : Type := mkDatetime {
  year : N; month : N; day : N;
  hour : N; minute : N; second : N; microsecond : N
}.

(** [d.isoformat()]: the fraction is printed only when it is not zero. *)
Definition isoformat (d : datetime) : string :=
  zero_pad 4 (year d) ++ "-" ++ zero_pad 2 (month d) ++ "-" ++ zero_pad 2 (day d)
  ++ "T" ++ zero_pad 2 (hour d) ++ ":" ++ zero_pad 2 (minute d)
  ++ ":" ++ zero_pad 2 (second d)
  ++ (if (microsecond d =? 0)%N then "" else "." ++ zero_pad 6 (microsecond d)).

(** ** The interpreter and the libraries *)

Record Runtime : Type := mkRuntime {
  (** [json.loads] on a [str]: [None] when it raises [JSONDecodeError] *)
  json_decode : string -> option pyval;
  (** the text of that [JSONDecodeError] *)
  json_decode_error : string -> string;
  (** [float.__repr__] *)
  float_repr : Q -> string;
  (** [str(v)] of a value that is not a [str] (for a [str], [str(v)] is [v]) *)
  py_repr : pyval -> string;
  (** [int(d.timestamp())]: seconds since the epoch of a naive [datetime]
      read in the local time zone of the process *)
  posix_seconds : datetime -> Z;
  (** [os.environ.get] *)
  environ : string -> option string
}.

(** ** Exceptions *)

Inductive exn_class : Type :=
| Exception
| TypeError
| AttributeError
| ValueError
| JSONDecodeError
| OSError
| KeyError
| ClientError
| RequestException
| HTTPError
| ConnectionError
| Timeout
| InvalidJSONError.

(** A raised exception: an instance of a subclass of [Exception] with the
    text [str(e)] gives, or the [SystemExit] of [sys.exit(code)], which is
    not an [Exception]. *)
Inductive exn : Type :=
| Exn (cls : exn_class) (msg : string)
| SystemExit (code : Z).

(** [isinstance(e, Exception)]. *)
Definition is_Exception (e : exn) : bool :=
  match e with
  | Exn _ _ => true
  | SystemExit _ => false
  end.

(** [isinstance(e, requests.exceptions.RequestException)]. *)
Definition is_RequestException (e : exn) : bool :=
  match e with
  | Exn (RequestException | HTTPError | ConnectionError | Timeout | InvalidJSONError) _ => true
  | _ => false
  end.

(** [str(e)]. *)
Definition exn_str (e : exn) : string :=
  match e with
  | Exn _ msg => msg
  | SystemExit code => str_of_Z code
  end.

(** ** Computations *)

Inductive outcome (A : Type) : Type :=
| Ret (a : A)
| Raise (e : exn).

Arguments Ret {A} a.
Arguments Raise {A} e.

(** A computation over a world [W]: it returns or raises, and leaves a world. *)
Definition M (W A : Type) : Type := W -> outcome A * W.

Definition ret {W A} (a : A) : M W A := fun w => (Ret a, w).

Definition raise {W A} (e : exn) : M W A := fun w => (Raise e, w).

Definition bind {W A B} (c : M W A) (k : A -> M W B) : M W B :=
  fun w =>
    match c w with
    | (Ret a, w') => k a w'
    | (Raise e, w') => (Raise e, w')
    end.

(** [try: c  except <catches> as e: handler e].  An exception the clause
    does not name goes on to the caller. *)
Definition try_except {W A} (c : M W A) (catches : exn -> bool)
    (handler : exn -> M W A) : M W A :=
  fun w =>
    match c w with
    | (Ret a, w') => (Ret a, w')
    | (Raise e, w') => if catches e then handler e w' else (Raise e, w')
    end.

Declare Scope comp_scope.
Delimit Scope comp_scope with comp.
Notation "x <- c ;; k" := (bind c (fun x => k))
  (at level 61, c at next level, right associativity) : comp_scope.
Notation "c ;; k" := (bind c (fun _ => k))
  (at level 61, right associativity) : comp_scope.

Open Scope comp_scope.

(** [v.get(k, default)]: only a dict has the method. *)
Definition py_get {W} (v : pyval) (k : string) (default : pyval) : M W pyval :=
  match v with
  | VDict d => ret (dict_get d k default)
  | _ => raise (Exn AttributeError
                  ("'" ++ type_name v ++ "' object has no attribute 'get'"))
  end.

(** [v[k]] with a string key. *)
Definition subscript {W} (v : pyval) (k : string) : M W pyval :=
  match v with
  | VDict d =>
      match dict_lookup k d with
      | Some x => ret x
      | None => raise (Exn KeyError ("'" ++ k ++ "'"))
      end
  | _ => raise (Exn TypeError
                  ("'" ++ type_name v ++ "' object is not subscriptable"))
  end.

Section Interpreter.

Variable rt : Runtime.

(** A value in an f-string: [format(v, '')], that is [str(v)]. *)
Definition format_value (v : pyval) : string :=
  match v with
  | VStr s => s
  | _ => py_repr rt v
  end.

(** [json.dumps(v, indent=indent)] with the default separators. *)
Definition json_dumps (indent : option nat) (v : pyval) : string :=
  dumps_at (float_repr rt) indent 0 v.

(** [json.loads(v)]. *)
Definition json_loads {W} (v : pyval) : M W pyval :=
  match v with
  | VStr s =>
      match json_decode rt s with
      | Some x => ret x
      | None => raise (Exn JSONDecodeError (json_decode_error rt s))
      end
  | _ => raise (Exn TypeError
                  ("the JSON object must be str, bytes or bytearray, not "
                   ++ type_name v))
  end.

End Interpreter.

(** * lambda_handler.py *)

Module LambdaHandler.

(** ** The world of one invocation *)

(** The arguments of one [s3.put_object] call. *)
Record s3_object : Type := mkObject {
  Bucket : string; Key : string; Body : string; ContentType : string
}.

(** One entry of [MetricData]. *)
Record metric_datum : Type := mkDatum {
  MetricName : string; Value : pyval; Unit : string; Timestamp : option datetime
}.

Inductive log_level : Type := INFO | ERROR.

(** What an invocation does to the outside, in the order it does it. *)
Inductive effect : Type :=
| Logged (level : log_level) (msg : string)
| Slept (seconds : Q)
| PutObject (o : s3_object)
| PutMetricData (namespace : string) (data : list metric_datum).

(** What a call to an AWS service raises when it fails: the class of the
    exception and its text. *)
Definition fault : Type := (exn_class * string)%type.

Definition exn_of (f : fault) : exn := Exn (fst f) (snd f).

(** The random generator and the clock are streams with a cursor; the
    [n]-th call to S3 (to CloudWatch) fails with [s3_fault n]
    ([cloudwatch_fault n]) when that is a fault.  [trace] is chronological,
    and [store] holds the objects S3 accepted, newest first. *)
Record World : Type := mkWorld {
  rng : nat -> N;
  rng_pos : nat;
  clock : nat -> datetime;
  clock_pos : nat;
  s3_fault : nat -> option fault;
  cloudwatch_fault : nat -> option fault;
  trace : list effect;
  store : list s3_object
}.

Definition with_rng_pos (n : nat) (w : World) : World :=
  mkWorld (rng w) n (clock w) (clock_pos w) (s3_fault w) (cloudwatch_fault w)
          (trace w) (store w).

Definition with_clock_pos (n : nat) (w : World) : World :=
  mkWorld (rng w) (rng_pos w) (clock w) n (s3_fault w) (cloudwatch_fault w)
          (trace w) (store w).

Definition with_trace (t : list effect) (w : World) : World :=
  mkWorld (rng w) (rng_pos w) (clock w) (clock_pos w) (s3_fault w)
          (cloudwatch_fault w) t (store w).

Definition with_store (s : list s3_object) (w : World) : World :=
  mkWorld (rng w) (rng_pos w) (clock w) (clock_pos w) (s3_fault w)
          (cloudwatch_fault w) (trace w) s.

Definition is_put_object (e : effect) : bool :=
  match e with PutObject _ => true | _ => false end.

Definition is_put_metric_data (e : effect) : bool :=
  match e with PutMetricData _ _ => true | _ => false end.

Definition is_slept (e : effect) : bool :=
  match e with Slept _ => true | _ => false end.

Definition count (p : effect -> bool) (t : list effect) : nat :=
  List.length (filter p t).

(** ** Primitive operations *)

Definition emit (e : effect) : M World unit :=
  fun w => (Ret tt, with_trace (trace w ++ [e])%list w).

Definition logger_info (msg : string) : M World unit := emit (Logged INFO msg).

Definition logger_error (msg : string) : M World unit := emit (Logged ERROR msg).

(** [datetime.utcnow()]. *)
Definition utcnow : M World datetime :=
  fun w => (Ret (clock w (clock_pos w)), with_clock_pos (S (clock_pos w)) w).

(** One output of the generator. *)
Definition draw : M World N :=
  fun w => (Ret (rng w (rng_pos w)), with_rng_pos (S (rng_pos w)) w).

(** [time.sleep(seconds)]. *)
Definition time_sleep (seconds : Q) : M World unit :=
  if Qle_bool 0 seconds then emit (Slept seconds)
  else raise (Exn ValueError "sleep length must be non-negative").

(** [s3.put_object(...)]: the call is made, and the object is stored unless
    the call raises. *)
Definition s3_put_object (o : s3_object) : M World unit :=
  fun w =>
    let w' := with_trace (trace w ++ [PutObject o])%list w in
    match s3_fault w (count is_put_object (trace w)) with
    | Some f => (Raise (exn_of f), w')
    | None => (Ret tt, with_store (o :: store w) w')
    end.

(** [cloudwatch.put_metric_data(...)]. *)
Definition cloudwatch_put_metric_data (namespace : string)
    (data : list metric_datum) : M World unit :=
  fun w =>
    let w' := with_trace (trace w ++ [PutMetricData namespace data])%list w in
    match cloudwatch_fault w (count is_put_metric_data (trace w)) with
    | Some f => (Raise (exn_of f), w')
    | None => (Ret tt, w')
    end.

(** ** The [random] module *)

(** The stream [rng] holds, for each call to the module, the number that
    call ends with: the 53-bit numerator for [random()], the accepted
    output of the rejection loop for [_randbelow(n)] (the loop of the
    library ends with probability one and is not modelled).  A number
    that is out of range for its call is reduced into the range. *)

(** [random.random()]: a multiple of 2^-53 in [[0, 1)]. *)
Definition unit_fraction (k : N) : Q :=
  Z.of_N (k mod 2 ^ 53) # 2 ^ 53.

Definition random_random : M World Q :=
  k <- draw;; ret (unit_fraction k).

(** [random.uniform(a, b)] is [a + (b - a) * random()], in floats. *)
Definition random_uniform (a b : Q) : M World Q :=
  u <- random_random;; ret (float_add a (float_mul (float_sub b a) u)).

(** [_randbelow(n)]: a number below [n]. *)
Definition randbelow (n : N) : M World N :=
  k <- draw;; ret (k mod n)%N.

(** [random.randint(a, b)] is [a + _randbelow(b - a + 1)]. *)
Definition random_randint (a b : Z) : M World Z :=
  k <- randbelow (Z.to_N (b - a + 1));; ret (a + Z.of_N k)%Z.

(** [random.choice(seq)] is [seq[_randbelow(len(seq))]]. *)
Definition random_choice {A} (seq : list A) (default : A) : M World A :=
  i <- randbelow (N.of_nat (List.length seq));; ret (nth (N.to_nat i) seq default).

(** ** The handler *)

Section Handler.

Variable rt : Runtime.

(** The entries [send_metrics] builds for a document type, an analysis
    result and a source; the source text of that list is cut off after
    its first name. *)
Variable metrics_data : pyval -> pyval -> pyval -> list metric_datum.

Definition environ_get (name default : string) : string :=
  match environ rt name with
  | Some v => v
  | None => default
  end.

Definition METRICS_NAMESPACE : string :=
  environ_get "METRICS_NAMESPACE" "VCHASNO/Analytics".

Definition RESULTS_BUCKET : string :=
  environ_get "RESULTS_BUCKET" "vchasno-analysis-results".

Definition key_findings : pyval :=
  VList [VStr "Document structure compliant";
         VStr "All required fields present";
         VStr "Signatures valid"].

(** Analyze document and generate metrics. *)
Definition analyze_document (document_id document_type : pyval) : M World pyval :=
  start_time <- utcnow;;
  delay <- random_uniform (float_literal (5 # 100)) (float_literal (2 # 10));;
  time_sleep delay;;
  now <- utcnow;;
  let analysis_id :=
    "AN-" ++ format_value rt document_id ++ "-" ++ str_of_Z (posix_seconds rt now) in
  compliance_score <- random_uniform 85 99;;
  validation_passed <- random_choice [true; true; true; false] false;;
  docs_per_hour <- random_randint 500 2000;;
  docs_per_day <- random_randint 10000 45000;;
  latency_p50 <- random_uniform (float_literal (1 # 10)) (float_literal (3 # 10));;
  latency_p95 <- random_uniform (float_literal (4 # 10)) (float_literal (8 # 10));;
  latency_p99 <- random_uniform (float_literal (9 # 10)) (float_literal (15 # 10));;
  ret (VDict [("analysis_id", VStr analysis_id);
              ("document_id", document_id);
              ("document_type", document_type);
              ("timestamp", VStr (isoformat start_time));
              ("compliance_score", VFloat compliance_score);
              ("validation_passed", VBool validation_passed);
              ("metrics", VDict [("docs_per_hour", VInt docs_per_hour);
                                 ("docs_per_day", VInt docs_per_day);
                                 ("latency_p50", VFloat latency_p50);
                                 ("latency_p95", VFloat latency_p95);
                                 ("latency_p99", VFloat latency_p99)]);
              ("key_findings", key_findings)]).

(** Modelled from the spec: the body of [send_metrics] is missing from the
    source after the opening of its [try] and of the list [metrics_data].
    The spec has it emit the metrics of the result to the metrics backend
    and has a failure of that emission not fail the request: the one call
    is guarded, and what it raises is dropped. *)
Definition send_metrics (document_type analysis_result source : pyval) : M World unit :=
  try_except
    (cloudwatch_put_metric_data METRICS_NAMESPACE
       (metrics_data document_type analysis_result source))
    is_Exception
    (fun _ => ret tt).

Definition error_metric (now : datetime) : metric_datum :=
  {| MetricName := "AnalysisErrors"; Value := VInt 1; Unit := "Count";
     Timestamp := Some now |}.

Definition bad_request : pyval :=
  VDict [("statusCode", VInt 400);
         ("body", VStr (json_dumps rt None (VDict [("error", VStr "document_id is required")])))].

Definition success_response (response_body : pyval) : pyval :=
  VDict [("statusCode", VInt 200);
         ("headers", VDict [("Content-Type", VStr "application/json");
                            ("Access-Control-Allow-Origin", VStr "*")]);
         ("body", VStr (json_dumps rt None response_body))].

Definition server_error (e : exn) : pyval :=
  VDict [("statusCode", VInt 500);
         ("headers", VDict [("Content-Type", VStr "application/json")]);
         ("body", VStr (json_dumps rt None (VDict [("error", VStr "Internal server error");
                                           ("message", VStr (exn_str e))])))].

(** The body of the [try] of [lambda_handler]. *)
Definition process (event : pydict) : M World pyval :=
  logger_info ("Received event: " ++ json_dumps rt None (VDict event));;
  body <- json_loads rt (dict_get event "body" (VStr "{}"));;
  document_id <- py_get body "document_id" VNone;;
  document_type <- py_get body "document_type" (VStr "contract");;
  source <- py_get body "source" (VStr "unknown");;
  if negb (truthy document_id) then ret bad_request
  else
    analysis_result <- analyze_document document_id document_type;;
    now <- utcnow;;
    let result_key :=
      "analysis/" ++ format_value rt document_id ++ "/" ++ isoformat now ++ ".json" in
    s3_put_object {| Bucket := RESULTS_BUCKET; Key := result_key;
                     Body := json_dumps rt None analysis_result;
                     ContentType := "application/json" |};;
    send_metrics document_type analysis_result source;;
    analysis_id <- subscript analysis_result "analysis_id";;
    metrics <- subscript analysis_result "metrics";;
    generation_rate <- subscript metrics "docs_per_hour";;
    latency_p50 <- subscript metrics "latency_p50";;
    latency_p95 <- subscript metrics "latency_p95";;
    latency_p99 <- subscript metrics "latency_p99";;
    let response_body :=
      VDict [("document_id", document_id);
             ("analysis_id", analysis_id);
             ("status", VStr "completed");
             ("result_location", VStr ("s3://" ++ RESULTS_BUCKET ++ "/" ++ result_key));
             ("metrics", VDict [("generation_rate", generation_rate);
                                ("latency_p50", latency_p50);
                                ("latency_p95", latency_p95);
                                ("latency_p99", latency_p99)])] in
    logger_info ("Analysis completed: " ++ format_value rt response_body);;
    ret (success_response response_body).

(** The [except Exception as e] clause of [lambda_handler]. *)
Definition on_error (e : exn) : M World pyval :=
  logger_error ("Error processing request: " ++ exn_str e);;
  now <- utcnow;;
  cloudwatch_put_metric_data METRICS_NAMESPACE [error_metric now];;
  ret (server_error e).

(** Main Lambda handler for the /analyze endpoint. *)
Definition lambda_handler (event : pydict) : M World pyval :=
  try_except (process event) is_Exception on_error.

End Handler.

End LambdaHandler.

(** * analyze_cli.py *)

Module AnalyzeCli.

(** ** The world of one run *)

Inductive http_method : Type := GET | POST.

(** A request handed to [requests]: [json] is the payload of a POST. *)
Record request : Type := mkRequest {
  method : http_method;
  url : string;
  json : option pyval;
  headers : list (string * string)
}.

(** A response: [decoded] is what [response.json()] returns or raises. *)
Record response : Type := mkResponse {
  status_code : Z;
  reason : string;
  decoded : outcome pyval
}.

(** What [requests.post] or [requests.get] does with a request. *)
Inductive exchange : Type :=
| Answered (r : response)
| Failed (e : exn).

Inductive effect : Type :=
| Stdout (text : string)
| Stderr (text : string)
| Sent (r : request).

(** The [n]-th request of the run meets [network n]; [files] is what
    [open(path)] followed by a read gives, or the exception it raises. *)
Record World : Type := mkWorld {
  network : nat -> exchange;
  files : string -> outcome string;
  clock : nat -> datetime;
  clock_pos : nat;
  trace : list effect
}.

Definition with_clock_pos (n : nat) (w : World) : World :=
  mkWorld (network w) (files w) (clock w) n (trace w).

Definition with_trace (t : list effect) (w : World) : World :=
  mkWorld (network w) (files w) (clock w) (clock_pos w) t.

Definition is_sent (e : effect) : bool :=
  match e with Sent _ => true | _ => false end.

(** The requests of a trace, in the order they were sent. *)
Fixpoint sent (t : list effect) : list request :=
  match t with
  | [] => []
  | Sent r :: t' => r :: sent t'
  | _ :: t' => sent t'
  end%list.

(** ** Primitive operations *)

Definition emit (e : effect) : M World unit :=
  fun w => (Ret tt, with_trace (trace w ++ [e])%list w).

(** [print(text)]. *)
Definition print (text : string) : M World unit := emit (Stdout text).

(** [print(text, file=sys.stderr)]. *)
Definition print_err (text : string) : M World unit := emit (Stderr text).

Definition utcnow : M World datetime :=
  fun w => (Ret (clock w (clock_pos w)), with_clock_pos (S (clock_pos w)) w).

(** [requests.request(...)]: the request goes out and the network answers
    or fails. *)
Definition requests_send (r : request) : M World response :=
  fun w =>
    let w' := with_trace (trace w ++ [Sent r])%list w in
    match network w (List.length (sent (trace w))) with
    | Answered resp => (Ret resp, w')
    | Failed e => (Raise e, w')
    end.

Definition requests_post (url : string) (payload : pyval)
    (headers : list (string * string)) : M World response :=
  requests_send (mkRequest POST url (Some payload) headers).

Definition requests_get (url : string) : M World response :=
  requests_send (mkRequest GET url None []).

(** The [HTTPError] that [raise_for_status] builds for a response to a
    request for [url]: one for a 4xx and for a 5xx status, none otherwise. *)
Definition http_error (url : string) (r : response) : option exn :=
  let c := status_code r in
  if ((400 <=? c) && (c <? 500))%Z then
    Some (Exn HTTPError
            (str_of_Z c ++ " Client Error: " ++ reason r ++ " for url: " ++ url))
  else if ((500 <=? c) && (c <? 600))%Z then
    Some (Exn HTTPError
            (str_of_Z c ++ " Server Error: " ++ reason r ++ " for url: " ++ url))
  else None.

(** [response.raise_for_status()]. *)
Definition raise_for_status (url : string) (r : response) : M World unit :=
  match http_error url r with
  | Some e => raise e
  | None => ret tt
  end.

(** [response.json()]. *)
Definition response_json (r : response) : M World pyval :=
  fun w => (decoded r, w).

(** [open(path)] and a read of the whole file. *)
Definition read_file (path : string) : M World string :=
  fun w => (files w path, w).

(** [for x in v]: the items a loop over [v] visits. *)
Definition iterate (v : pyval) : M World (list pyval) :=
  match v with
  | VList l => ret l
  | VDict d => ret (map (fun kv => VStr (fst kv)) d)
  | VStr s => ret (map (fun c => VStr (String c "")) (list_ascii_of_string s))
  | _ => raise (Exn TypeError ("'" ++ type_name v ++ "' object is not iterable"))
  end.

(** ** The client *)

Section Client.

Variable rt : Runtime.

(** [self.endpoint_url]. *)
Variable endpoint_url : string.

(** Analyze a document and send to Lambda endpoint. *)
Definition analyze_document (doc_id doc_type : pyval) : M World pyval :=
  now <- utcnow;;
  let payload := VDict [("document_id", doc_id);
                        ("document_type", doc_type);
                        ("timestamp", VStr (isoformat now));
                        ("source", VStr "cli")] in
  try_except
    (let target := endpoint_url ++ "/analyze" in
     response <- requests_post target payload [("Content-Type", "application/json")];;
     raise_for_status target response;;
     response_json response)
    is_RequestException
    (fun e =>
       print_err ("Error analyzing document: " ++ exn_str e);;
       ret VNone).

(** The loop of [batch_analyze] over the ids still to visit, with the
    results collected so far. *)
Fixpoint batch_loop (doc_ids : list pyval) (doc_type : pyval)
    (results : list pyval) : M World (list pyval) :=
  match doc_ids with
  | [] => ret results
  | doc_id :: rest =>
      print ("Analyzing document " ++ format_value rt doc_id ++ "...");;
      result <- analyze_document doc_id doc_type;;
      batch_loop rest doc_type
        (if truthy result then (results ++ [result])%list else results)
  end.

(** Analyze multiple documents. *)
Definition batch_analyze (doc_ids doc_type : pyval) : M World pyval :=
  ids <- iterate doc_ids;;
  results <- batch_loop ids doc_type [];;
  ret (VList results).

(** Get analytics statistics. *)
Definition get_stats : M World pyval :=
  try_except
    (let target := endpoint_url ++ "/stats" in
     response <- requests_get target;;
     raise_for_status target response;;
     response_json response)
    is_RequestException
    (fun e =>
       print_err ("Error fetching stats: " ++ exn_str e);;
       ret VNone).

End Client.

(** ** The command line *)

Inductive action : Type := analyze | batch | stats.

(** The namespace [parser.parse_args()] returns: an option that was not
    given and has no default is [None]. *)
Record arguments : Type := mkArguments {
  endpoint : string;
  act : action;
  doc_id : option string;
  doc_type : string;
  batch_file : option string
}.

(** The value of an optional argument when it is truthy. *)
Definition given (a : option string) : option string :=
  match a with
  | Some s => if String.eqb s "" then None else Some s
  | None => None
  end.

(** [sys.exit(code)]. *)
Definition sys_exit {A} (code : Z) : M World A := raise (SystemExit code).

Section Main.

Variable rt : Runtime.

Definition print_json (v : pyval) : M World unit :=
  print (json_dumps rt (Some 2%nat) v).

Definition main (args : arguments) : M World unit :=
  let cli := endpoint args in
  match act args with
  | analyze =>
      match given (doc_id args) with
      | None =>
          print_err "Error: --doc-id required for analyze action";;
          sys_exit 1
      | Some id =>
          result <- analyze_document cli (VStr id) (VStr (doc_type args));;
          if truthy result then print_json result else ret tt
      end
  | batch =>
      match given (batch_file args) with
      | None =>
          print_err "Error: --batch-file required for batch action";;
          sys_exit 1
      | Some path =>
          text <- read_file path;;
          doc_ids <- json_loads rt (VStr text);;
          results <- batch_analyze rt cli doc_ids (VStr (doc_type args));;
          print_json results
      end
  | stats =>
      result <- get_stats cli;;
      if truthy result then print_json result else ret tt
  end.

(** The exit status of the process that ran [main]: zero when it returns,
    the code of a [SystemExit], one for an exception nothing caught. *)
Definition exit_status (o : outcome unit) : Z :=
  match o with
  | Ret _ => 0
  | Raise (SystemExit code) => code
  | Raise (Exn _ _) => 1
  end.

End Main.

End AnalyzeCli.

(** * Closed forms *)

Module HandlerSpec.

Import LambdaHandler.

Section Analysis.

Variable rt : Runtime.

(** The [i]-th output of the generator counted from the cursor of [w]. *)
Definition draw_at (w : World) (i : nat) : N := rng w (i + rng_pos w)%nat.

(** The [i]-th clock reading counted from the cursor of [w]. *)
Definition time_at (w : World) (i : nat) : datetime := clock w (i + clock_pos w)%nat.

Definition uniform_at (w : World) (i : nat) (a b : Q) : Q :=
  float_add a (float_mul (float_sub b a) (unit_fraction (draw_at w i))).

Definition randint_at (w : World) (i : nat) (a b : Z) : Z :=
  (a + Z.of_N (draw_at w i mod Z.to_N (b - a + 1)))%Z.

(** The [analysis_id] of an analysis that starts in [w]. *)
Definition analysis_id_of (document_id : pyval) (w : World) : string :=
  "AN-" ++ format_value rt document_id ++ "-"
  ++ str_of_Z (posix_seconds rt (time_at w 1)).

(** The [metrics] of an analysis that starts in [w]. *)
Definition metrics_of (w : World) : pydict :=
  [("docs_per_hour", VInt (randint_at w 3 500 2000));
   ("docs_per_day", VInt (randint_at w 4 10000 45000));
   ("latency_p50",
    VFloat (uniform_at w 5 (float_literal (1 # 10)) (float_literal (3 # 10))));
   ("latency_p95",
    VFloat (uniform_at w 6 (float_literal (4 # 10)) (float_literal (8 # 10))));
   ("latency_p99",
    VFloat (uniform_at w 7 (float_literal (9 # 10)) (float_literal (15 # 10))))].

(** The result of an analysis that starts in [w]. *)
Definition analysis_of (document_id document_type : pyval) (w : World) : pyval :=
  VDict [("analysis_id", VStr (analysis_id_of document_id w));
         ("document_id", document_id);
         ("document_type", document_type);
         ("timestamp", VStr (isoformat (time_at w 0)));
         ("compliance_score", VFloat (uniform_at w 1 85 99));
         ("validation_passed",
          VBool (nth (N.to_nat (draw_at w 2 mod 4)) [true; true; true; false] false));
         ("metrics", VDict (metrics_of w));
         ("key_findings", key_findings)].

(** The world an analysis that starts in [w] leaves: eight outputs drawn,
    two clock readings, one sleep. *)
Definition after_analysis (w : World) : World :=
  mkWorld (rng w) (8 + rng_pos w) (clock w) (2 + clock_pos w)
          (s3_fault w) (cloudwatch_fault w)
          (trace w ++ [Slept (uniform_at w 0 (float_literal (5 # 100))
                                 (float_literal (2 # 10)))])%list
          (store w).

(** The line [lambda_handler] logs on entry. *)
Definition entry_log (event : pydict) : effect :=
  Logged INFO ("Received event: " ++ json_dumps rt None (VDict event)).

(** The world after the entry log. *)
Definition entered (event : pydict) (w : World) : World :=
  with_trace (trace w ++ [entry_log event])%list w.

(** The three parameters the handler reads from a decoded body. *)
Definition document_id_of (d : pydict) : pyval := dict_get d "document_id" VNone.
Definition document_type_of (d : pydict) : pyval :=
  dict_get d "document_type" (VStr "contract").
Definition source_of (d : pydict) : pyval := dict_get d "source" (VStr "unknown").

(** The result the handler obtains for the body [d] of [event]. *)
Definition result_of (event d : pydict) (w : World) : pyval :=
  analysis_of (document_id_of d) (document_type_of d) (entered event w).

(** The key under which it is stored: the clock is read once more after
    the analysis. *)
Definition result_key_of (event d : pydict) (w : World) : string :=
  "analysis/" ++ format_value rt (document_id_of d) ++ "/"
  ++ isoformat (time_at (entered event w) 2) ++ ".json".

(** The object handed to S3. *)
Definition object_of (event d : pydict) (w : World) : s3_object :=
  {| Bucket := RESULTS_BUCKET rt;
     Key := result_key_of event d w;
     Body := json_dumps rt None (result_of event d w);
     ContentType := "application/json" |}.

(** The body of the success response. *)
Definition response_body_of (event d : pydict) (w : World) : pyval :=
  let m := metrics_of (entered event w) in
  VDict [("document_id", document_id_of d);
         ("analysis_id", VStr (analysis_id_of (document_id_of d) (entered event w)));
         ("status", VStr "completed");
         ("result_location",
          VStr ("s3://" ++ RESULTS_BUCKET rt ++ "/" ++ result_key_of event d w));
         ("metrics",
          VDict [("generation_rate", dict_get m "docs_per_hour" VNone);
                 ("latency_p50", dict_get m "latency_p50" VNone);
                 ("latency_p95", dict_get m "latency_p95" VNone);
                 ("latency_p99", dict_get m "latency_p99" VNone)])].

(** The world in which the handler calls S3: after the entry log, the
    analysis and the clock reading of the key. *)
Definition before_put (event : pydict) (w : World) : World :=
  with_clock_pos (3 + clock_pos w) (after_analysis (entered event w)).

(** The world once the call to S3 is made. *)
Definition put_made (event d : pydict) (w : World) : World :=
  with_trace (trace (before_put event w) ++ [PutObject (object_of event d w)])%list
             (before_put event w).

(** The world once S3 accepted the object. *)
Definition put_stored (event d : pydict) (w : World) : World :=
  with_store (object_of event d w :: store w) (put_made event d w).

(** The line the handler logs before it returns the success response. *)
Definition completion_log (event d : pydict) (w : World) : effect :=
  Logged INFO ("Analysis completed: " ++ format_value rt (response_body_of event d w)).

(** The world the [except] clause leaves when it handles [e] in [w]: the
    error is logged, the clock is read, CloudWatch is called. *)
Definition error_reported (e : exn) (w : World) : World :=
  mkWorld (rng w) (rng_pos w) (clock w) (S (clock_pos w))
          (s3_fault w) (cloudwatch_fault w)
          (trace w ++ [Logged ERROR ("Error processing request: " ++ exn_str e);
                       PutMetricData (METRICS_NAMESPACE rt)
                                     [error_metric (time_at w 0)]])%list
          (store w).

(** The text of [{"error": "document_id is required"}]. *)
Definition missing_document_id_body : string :=
  "{" ++ dquote ++ "error" ++ dquote ++ ": "
  ++ dquote ++ "document_id is required" ++ dquote ++ "}".

(** [isinstance(v, dict)] and [isinstance(v, str)]. *)
Definition is_dict (v : pyval) : bool :=
  match v with VDict _ => true | _ => false end.

Definition is_str (v : pyval) : bool :=
  match v with VStr _ => true | _ => false end.

(** The body of the 500 response for an exception whose text is [msg]. *)
Definition internal_error_body (msg : string) : string :=
  json_dumps rt None (VDict [("error", VStr "Internal server error");
                             ("message", VStr msg)]).

(** The 500 response for an exception whose text is [msg]. *)
Definition internal_error (msg : string) : pyval :=
  VDict [("statusCode", VInt 500);
         ("headers", VDict [("Content-Type", VStr "application/json")]);
         ("body", VStr (internal_error_body msg))].

(** What a run of the handler comes to: the entry log first, then one of
    three statuses or the exception of CloudWatch. *)
Definition handler_outcome_ok
    (metrics_data : pyval -> pyval -> pyval -> list metric_datum)
    (event : pydict) (w : World) : Prop :=
  (exists t,
     trace (snd (lambda_handler rt metrics_data event w))
     = (trace w ++ entry_log event :: t)%list)
  /\ match fst (lambda_handler rt metrics_data event w) with
     | Ret response =>
         exists fields code body,
           response = VDict fields
           /\ dict_lookup "statusCode" fields = Some (VInt code)
           /\ (code = 200 \/ code = 400 \/ code = 500)%Z
           /\ dict_lookup "body" fields = Some (VStr body)
     | Raise e =>
         exists f,
           cloudwatch_fault w (count is_put_metric_data (trace w)) = Some f
           /\ e = exn_of f
     end.

End Analysis.

End HandlerSpec.

Module ClientSpec.

Import AnalyzeCli.

(** What the guarded block of [analyze_document] and of [get_stats] comes
    to for one exchange with the server at [target]: the decoded body, or
    the exception of the transport, of the status, or of the decoding. *)
Definition attempt (target : string) (x : exchange) : outcome pyval :=
  match x with
  | Failed e => Raise e
  | Answered r =>
      match http_error target r with
      | Some e => Raise e
      | None => decoded r
      end
  end.

(** An attempt that ended in an exception. *)
Definition failedb (o : outcome pyval) : bool :=
  match o with Raise _ => true | Ret _ => false end.

(** An attempt whose exception, if any, the [except] clause of the client
    catches. *)
Definition caught (o : outcome pyval) : Prop :=
  match o with
  | Raise e => is_RequestException e = true
  | Ret _ => True
  end.

(** The request [analyze_document] sends at the clock reading [now]. *)
Definition request_for (endpoint_url : string) (doc_id doc_type : pyval)
    (now : datetime) : request :=
  mkRequest POST (endpoint_url ++ "/analyze")
    (Some (VDict [("document_id", doc_id);
                  ("document_type", doc_type);
                  ("timestamp", VStr (isoformat now));
                  ("source", VStr "cli")]))
    [("Content-Type", "application/json")].

(** The [document_id] a request carries. *)
Definition requested_id (r : request) : option pyval :=
  match json r with
  | Some (VDict payload) => dict_lookup "document_id" payload
  | _ => None
  end.

(** The world once [analyze_document] has read the clock and sent. *)
Definition dispatched (r : request) (w : World) : World :=
  with_trace (trace w ++ [Sent r])%list (with_clock_pos (S (clock_pos w)) w).

(** The attempts a batch over [ids] makes when the next exchange is the
    [n]-th, one per id. *)
Fixpoint exchanges (target : string) (net : nat -> exchange) (n : nat)
    (ids : list pyval) : list (outcome pyval) :=
  match ids with
  | [] => []
  | _ :: rest => attempt target (net n) :: exchanges target net (S n) rest
  end%list.

(** The requests a batch over [ids] sends when the next clock reading is
    the [pos]-th. *)
Fixpoint batch_requests (endpoint_url : string) (doc_type : pyval)
    (clk : nat -> datetime) (pos : nat) (ids : list pyval) : list request :=
  match ids with
  | [] => []
  | id :: rest =>
      request_for endpoint_url id doc_type (clk pos)
      :: batch_requests endpoint_url doc_type clk (S pos) rest
  end%list.

(** The decoded bodies of the attempts that returned, in order. *)
Fixpoint successes (os : list (outcome pyval)) : list pyval :=
  match os with
  | [] => []
  | Ret v :: rest => v :: successes rest
  | Raise _ :: rest => successes rest
  end%list.

(** The number of attempts that failed. *)
Definition failures (os : list (outcome pyval)) : nat :=
  List.length (filter failedb os).

(** A status for which [raise_for_status] raises. *)
Definition is_error_status (c : Z) : bool := ((400 <=? c) && (c <? 600))%Z.

(** A value a [for] loop accepts. *)
Definition is_iterable (v : pyval) : bool :=
  match v with
  | VList _ | VDict _ | VStr _ => true
  | _ => false
  end.

(** What a batch over [ids] does to the outside when its failures are
    caught: for each id the progress line, the request, and the diagnostic
    when the request failed. *)
Fixpoint batch_effects (rt : Runtime) (endpoint_url : string) (doc_type : pyval)
    (net : nat -> exchange) (clk : nat -> datetime) (n pos : nat)
    (ids : list pyval) : list effect :=
  match ids with
  | [] => []
  | id :: rest =>
      Stdout ("Analyzing document " ++ format_value rt id ++ "...")
      :: Sent (request_for endpoint_url id doc_type (clk pos))
      :: (match attempt (endpoint_url ++ "/analyze") (net n) with
          | Raise e => [Stderr ("Error analyzing document: " ++ exn_str e)]
          | Ret _ => []
          end
          ++ batch_effects rt endpoint_url doc_type net clk (S n) (S pos) rest)
  end%list.

End ClientSpec.

(** * Examples *)

Module Examples.

(** A float printed as the fraction that models it. *)
Definition show_float (q : Q) : string :=
  str_of_Z (Qnum q) ++ "/" ++ str_of_Z (Z.pos (Qden q)).

(** The body of the scenario of the spec, and its text. *)
Definition doc123 : pydict :=
  [("document_id", VStr "doc-123"); ("document_type", VStr "contract")].

Definition doc123_text : string := dumps_at show_float None 0 (VDict doc123).

(** A decoder that knows the two bodies of the examples and refuses every
    other text. *)
Definition decode (s : string) : option pyval :=
  if String.eqb s "{}" then Some (VDict [])
  else if String.eqb s doc123_text then Some (VDict doc123)
  else None.

Definition runtime : Runtime :=
  {| json_decode := decode;
     json_decode_error := fun _ => "Expecting value: line 1 column 1 (char 0)";
     float_repr := show_float;
     py_repr := fun v => "<" ++ type_name v ++ ">";
     posix_seconds := fun d => (1705314600 + Z.of_N (second d))%Z;
     environ := fun _ => None |}.

Definition no_metrics (document_type analysis_result source : pyval)
  : list LambdaHandler.metric_datum := [].

Definition morning : datetime := mkDatetime 2024 1 15 10 30 0 0.

(** A world in which S3 and CloudWatch take every call. *)
Definition calm : LambdaHandler.World :=
  LambdaHandler.mkWorld (fun _ => 0%N) 0 (fun _ => morning) 0
    (fun _ => None) (fun _ => None) [] [].

(** A world in which CloudWatch throttles every call. *)
Definition cloudwatch_down : LambdaHandler.World :=
  LambdaHandler.mkWorld (fun _ => 0%N) 0 (fun _ => morning) 0
    (fun _ => None)
    (fun _ => Some (ClientError,
                    "An error occurred (Throttling) when calling the PutMetricData operation"))
    [] [].

Definition event_doc123 : pydict := [("body", VStr doc123_text)].

Definition event_garbage : pydict := [("body", VStr "not json")].

Definition api : string := "https://test-api.vchasno.com".

Definition no_files (path : string) : outcome string :=
  Raise (Exn OSError ("[Errno 2] No such file or directory: '" ++ path ++ "'")).

Definition client_world (net : nat -> AnalyzeCli.exchange) : AnalyzeCli.World :=
  AnalyzeCli.mkWorld net no_files (fun _ => morning) 0 [].

(** No server listens. *)
Definition offline : AnalyzeCli.World :=
  client_world (fun _ => AnalyzeCli.Failed (Exn ConnectionError "Connection refused")).

(** The double of [test_analyze_document_failure] and of
    [test_get_stats_failure]: the transport raises a plain [Exception]. *)
Definition mocked_failure : AnalyzeCli.World :=
  client_world (fun _ => AnalyzeCli.Failed (Exn Exception "API Error")).

(** A server that answers every request with 200 and the body [{}]. *)
Definition empty_answers : AnalyzeCli.World :=
  client_world (fun _ => AnalyzeCli.Answered
                           (AnalyzeCli.mkResponse 200 "OK" (Ret (VDict [])))).

(** The batch scenario of the spec: the second request fails at the
    transport, the others are answered. *)
Definition second_fails : AnalyzeCli.World :=
  client_world
    (fun n => if Nat.eqb n 1
              then AnalyzeCli.Failed (Exn ConnectionError "Connection refused")
              else AnalyzeCli.Answered
                     (AnalyzeCli.mkResponse 200 "OK"
                        (Ret (VDict [("request", VInt (Z.of_nat n))])))).

Definition abc : list pyval := [VStr "a"; VStr "b"; VStr "c"].

Definition analyze_without_id : AnalyzeCli.arguments :=
  AnalyzeCli.mkArguments api AnalyzeCli.analyze None "contract" None.

Definition batch_without_file : AnalyzeCli.arguments :=
  AnalyzeCli.mkArguments api AnalyzeCli.batch None "contract" None.

Definition analyze_doc789 : AnalyzeCli.arguments :=
  AnalyzeCli.mkArguments api AnalyzeCli.analyze (Some "doc-789") "contract" None.

Definition ask_stats : AnalyzeCli.arguments :=
  AnalyzeCli.mkArguments api AnalyzeCli.stats None "contract" None.

(** More bodies, and a decoder that knows them too. *)
Definition zero_id : pydict := [("document_id", VInt 0)].

Definition zero_id_text : string := dumps_at show_float None 0 (VDict zero_id).

Definition typed_doc : pydict :=
  [("document_id", VStr "doc-7"); ("document_type", VStr "invoice")].

Definition typed_doc_text : string := dumps_at show_float None 0 (VDict typed_doc).

Definition bare_doc : pydict := [("document_id", VStr "doc-9")].

Definition bare_doc_text : string := dumps_at show_float None 0 (VDict bare_doc).

Definition event_bare_doc : pydict := [("body", VStr bare_doc_text)].

Definition abc_text : string := dumps_at show_float None 0 (VList abc).

Definition decode_more (s : string) : option pyval :=
  if String.eqb s "[]" then Some (VList [])
  else if String.eqb s "42" then Some (VInt 42)
  else if String.eqb s zero_id_text then Some (VDict zero_id)
  else if String.eqb s typed_doc_text then Some (VDict typed_doc)
  else if String.eqb s bare_doc_text then Some (VDict bare_doc)
  else if String.eqb s abc_text then Some (VList abc)
  else decode s.

Definition runtime_more : Runtime :=
  {| json_decode := decode_more;
     json_decode_error := fun _ => "Expecting value: line 1 column 1 (char 0)";
     float_repr := show_float;
     py_repr := fun v => "<" ++ type_name v ++ ">";
     posix_seconds := fun d => (1705314600 + Z.of_N (second d))%Z;
     environ := fun name => if String.eqb name "RESULTS_BUCKET"
                            then Some "staging-results" else None |}.

Definition event_list : pydict := [("body", VStr "[]")].

Definition event_null_body : pydict := [("body", VNone)].

Definition event_zero_id : pydict := [("body", VStr zero_id_text)].

Definition event_typed_doc : pydict := [("body", VStr typed_doc_text)].

(** A world in which S3 denies every call. *)
Definition s3_down : LambdaHandler.World :=
  LambdaHandler.mkWorld (fun _ => 0%N) 0 (fun _ => morning) 0
    (fun _ => Some (ClientError,
                    "An error occurred (AccessDenied) when calling the PutObject operation"))
    (fun _ => None) [] [].


(** A world whose clock shows a quarter of a second past [morning], and
    whose generator gives other numbers. *)
Definition a_moment_later : LambdaHandler.World :=
  LambdaHandler.mkWorld (fun n => N.of_nat (1000 * n + 7)) 0
    (fun _ => mkDatetime 2024 1 15 10 30 0 250000) 0
    (fun _ => None) (fun _ => None) [] [].

(** Servers that answer every request with 404, and with 302. *)
Definition not_found : AnalyzeCli.World :=
  client_world (fun _ => AnalyzeCli.Answered
                           (AnalyzeCli.mkResponse 404 "Not Found"
                              (Ret (VDict [("message", VStr "no such route")])))).

Definition redirected : AnalyzeCli.World :=
  client_world (fun _ => AnalyzeCli.Answered
                           (AnalyzeCli.mkResponse 302 "Found"
                              (Ret (VDict [("moved", VBool true)])))).

(** The second request meets an exception the client does not catch. *)
Definition second_breaks : AnalyzeCli.World :=
  client_world
    (fun n => if Nat.eqb n 1
              then AnalyzeCli.Failed (Exn Exception "API Error")
              else AnalyzeCli.Answered
                     (AnalyzeCli.mkResponse 200 "OK"
                        (Ret (VDict [("request", VInt (Z.of_nat n))])))).

(** A world with one more file. *)
Definition with_file (path text : string) (w : AnalyzeCli.World) : AnalyzeCli.World :=
  AnalyzeCli.mkWorld (AnalyzeCli.network w)
    (fun p => if String.eqb p path then Ret text else AnalyzeCli.files w p)
    (AnalyzeCli.clock w) (AnalyzeCli.clock_pos w) (AnalyzeCli.trace w).

Definition batch_from_file : AnalyzeCli.arguments :=
  AnalyzeCli.mkArguments api AnalyzeCli.batch None "contract" (Some "ids.json").

End Examples.

(** * The embedding on concrete inputs *)

Example isoformat_whole_second :
  isoformat Examples.morning = "2024-01-15T10:30:00".
Proof. reflexivity. Qed.

Example isoformat_with_fraction :
  isoformat (mkDatetime 987 6 5 4 3 2 1500) = "0987-06-05T04:03:02.001500".
Proof. reflexivity. Qed.

Example dumps_error_object :
  json_dumps Examples.runtime None (VDict [("error", VStr "document_id is required")])
  = "{" ++ dquote ++ "error" ++ dquote ++ ": " ++ dquote
    ++ "document_id is required" ++ dquote ++ "}".
Proof. reflexivity. Qed.

Example dumps_scalars_and_lists :
  json_dumps Examples.runtime None
    (VList [VNone; VBool true; VBool false; VInt (-12); VList []; VDict []])
  = "[null, true, false, -12, [], {}]".
Proof. reflexivity. Qed.

Example dumps_indented :
  json_dumps Examples.runtime (Some 2%nat) (VList [VInt 1; VList [VInt 2; VInt 3]; VDict []])
  = "[" ++ newline ++ "  1," ++ newline ++ "  [" ++ newline ++ "    2," ++ newline
    ++ "    3" ++ newline ++ "  ]," ++ newline ++ "  {}" ++ newline ++ "]".
Proof. reflexivity. Qed.

Example dumps_escapes :
  encode_string ("a" ++ dquote ++ "\" ++ newline ++ String (ascii_of_N 233) "")
  = dquote ++ "a\" ++ dquote ++ "\\\n\u00e9" ++ dquote.
Proof. reflexivity. Qed.

(** The floats of the literals are the binary64 numbers Python has for
    them, and sums round as Python's do: [0.1 + 0.2] is
    [0.30000000000000004]. *)
Example float_one_tenth :
  float_literal (1 # 10) = (3602879701896397 # 36028797018963968)%Q.
Proof. vm_compute. reflexivity. Qed.

Example float_three_tenths :
  float_literal (3 # 10) = (5404319552844595 # 18014398509481984)%Q.
Proof. vm_compute. reflexivity. Qed.

Example float_sum_rounds :
  float_add (float_literal (1 # 10)) (float_literal (2 # 10))
  = (1351079888211149 # 4503599627370496)%Q.
Proof. vm_compute. reflexivity. Qed.

Example float_ties_to_even :
  round_double (inject_Z (2 ^ 53 + 1)) = inject_Z (2 ^ 53)
  /\ round_double (inject_Z (2 ^ 53 + 3)) = inject_Z (2 ^ 53 + 4).
Proof. split; vm_compute; reflexivity. Qed.

(** [random.uniform(0.4, 0.8)] on the largest output of [random()] is the
    float of [0.8], which is above the rational 8/10; likewise
    [random.uniform(0.05, 0.2)] and the float of [0.2]. *)
Example uniform_reaches_its_upper_float :
  float_add (float_literal (4 # 10))
    (float_mul (float_sub (float_literal (8 # 10)) (float_literal (4 # 10)))
       (LambdaHandler.unit_fraction (2 ^ 53 - 1)))
  = float_literal (8 # 10)
  /\ Qcompare (8 # 10) (float_literal (8 # 10)) = Lt
  /\ float_add (float_literal (5 # 100))
       (float_mul (float_sub (float_literal (2 # 10)) (float_literal (5 # 100)))
          (LambdaHandler.unit_fraction (2 ^ 53 - 1)))
     = float_literal (2 # 10)
  /\ Qcompare (2 # 10) (float_literal (2 # 10)) = Lt.
Proof. repeat split; vm_compute; reflexivity. Qed.

Example truthy_values :
  map truthy [VNone; VStr ""; VInt 0; VList []; VDict []; VStr "0"; VInt 7; VDict [("a", VNone)]]
  = [false; false; false; false; false; true; true; true].
Proof. reflexivity. Qed.

Example contains_inside : contains "doc-1" "AN-doc-1-1705314600" = true.
Proof. reflexivity. Qed.

Example contains_nowhere : contains "doc-2" "AN-doc-1-1705314600" = false.
Proof. reflexivity. Qed.

(** The scenario of the spec: the request for [doc-123] is answered with
    200, and the object is stored under the key of the clock reading. *)
Example handler_doc123 :
  exists response_text w',
    LambdaHandler.lambda_handler Examples.runtime Examples.no_metrics
      Examples.event_doc123 Examples.calm
    = (Ret (VDict [("statusCode", VInt 200);
                   ("headers", VDict [("Content-Type", VStr "application/json");
                                      ("Access-Control-Allow-Origin", VStr "*")]);
                   ("body", VStr response_text)]), w')
    /\ map LambdaHandler.Key (LambdaHandler.store w')
       = ["analysis/doc-123/2024-01-15T10:30:00.json"]
    /\ contains "s3://vchasno-analysis-results/analysis/doc-123/2024-01-15T10:30:00.json"
         response_text = true
    /\ contains "AN-doc-123-1705314600" response_text = true.
Proof.
  eexists _, _. split; [vm_compute; reflexivity|].
  repeat split; vm_compute; reflexivity.
Qed.

(** A body whose [document_id] is the number zero is refused like a missing
    one: the guard tests the truth value. *)
Example handler_refuses_zero :
  fst (LambdaHandler.process
         {| json_decode := fun _ => Some (VDict [("document_id", VInt 0)]);
            json_decode_error := fun _ => "";
            float_repr := Examples.show_float;
            py_repr := fun _ => "";
            posix_seconds := fun _ => 0%Z;
            environ := fun _ => None |}
         Examples.no_metrics [] Examples.calm)
  = Ret (VDict [("statusCode", VInt 400);
                ("body", VStr (HandlerSpec.missing_document_id_body))]).
Proof. reflexivity. Qed.

(** The batch scenario of the spec: of [a], [b], [c] the second fails at the
    transport; two results come back, and three requests went out. *)
Example batch_abc :
  exists w',
    AnalyzeCli.batch_analyze Examples.runtime Examples.api (VList Examples.abc)
      (VStr "contract") Examples.second_fails
    = (Ret (VList [VDict [("request", VInt 0)]; VDict [("request", VInt 2)]]), w')
    /\ map ClientSpec.requested_id (AnalyzeCli.sent (AnalyzeCli.trace w'))
       = [Some (VStr "a"); Some (VStr "b"); Some (VStr "c")].
Proof.
  eexists. split; vm_compute; reflexivity.
Qed.

(** * Properties of the handler *)

Import LambdaHandler HandlerSpec.

(** ** Rounding *)

Open Scope Q_scope.
Unset Implicit Arguments.

Lemma pow2_pos (e : Z) : 0 < pow2 e.
Proof. apply Qpower_0_lt. reflexivity. Qed.

Lemma pow2_le (a b : Z) : (a <= b)%Z -> pow2 a <= pow2 b.
Proof. intros H. apply Qpower_le_compat_l; [exact H | discriminate]. Qed.

Lemma pow2_lt_inv (a b : Z) : pow2 a < pow2 b -> (a < b)%Z.
Proof. intros H. apply (Qpower_lt_compat_l_inv 2); [exact H | reflexivity]. Qed.

Lemma pow2_plus (a b : Z) : pow2 (a + b) == pow2 a * pow2 b.
Proof. apply Qpower_plus. discriminate. Qed.

Lemma pow2_inject (n : Z) : (0 <= n)%Z -> inject_Z (2 ^ n) == pow2 n.
Proof. intros H. unfold pow2. rewrite Zpower_Qpower by exact H. reflexivity. Qed.


Lemma Qnum_pos (q : Q) : 0 < q -> (0 < Qnum q)%Z.
Proof. unfold Qlt. cbn. lia. Qed.

Lemma Q_as_fraction (q : Q) : q * inject_Z (Z.pos (Qden q)) == inject_Z (Qnum q).
Proof.
  destruct q as [n d]. unfold Qeq, Qmult, inject_Z. cbn. lia.
Qed.

Lemma log2_bounds (n : Z) :
  (0 < n)%Z -> pow2 (Z.log2 n) <= inject_Z n /\ inject_Z n < pow2 (Z.log2 n + 1).
Proof.
  intros H. destruct (Z.log2_spec n H) as [L U].
  pose proof (Z.log2_nonneg n) as Hl.
  split.
  - rewrite <- pow2_inject by exact Hl. rewrite <- Zle_Qle. exact L.
  - rewrite <- pow2_inject by lia. rewrite <- Zlt_Qlt. exact U.
Qed.

(** [floor_log2 q] is the exponent of the binade of a positive [q]. *)
Lemma floor_log2_spec (q : Q) :
  0 < q -> pow2 (floor_log2 q) <= q /\ q < pow2 (floor_log2 q + 1).
Proof.
  intros Hq. unfold floor_log2.
  set (n := Qnum q). set (d := Z.pos (Qden q)).
  destruct (log2_bounds n (Qnum_pos q Hq)) as [Ln Un].
  destruct (log2_bounds d eq_refl) as [Ld Ud].
  pose proof (Q_as_fraction q) as Hf. fold n d in Hf.
  assert (Hd : 0 < inject_Z d) by (unfold Qlt; cbn; lia).
  set (e := (Z.log2 n - Z.log2 d)%Z).
  assert (Hup : q < pow2 (e + 1)).
  { apply (Qmult_lt_r _ _ (inject_Z d) Hd). rewrite Hf.
    apply Qlt_le_trans with (pow2 (Z.log2 n + 1)); [exact Un|].
    replace (Z.log2 n + 1)%Z with ((e + 1) + Z.log2 d)%Z by (unfold e; lia).
    rewrite pow2_plus. apply Qmult_le_l; [apply pow2_pos | exact Ld]. }
  assert (Hlo : pow2 (e - 1) <= q).
  { apply (Qmult_le_r _ _ (inject_Z d) Hd). rewrite Hf.
    apply Qle_trans with (pow2 (Z.log2 n)); [|exact Ln].
    replace (Z.log2 n) with ((e - 1) + (Z.log2 d + 1))%Z by (unfold e; lia).
    rewrite pow2_plus. apply Qmult_le_l; [apply pow2_pos | apply Qlt_le_weak; exact Ud]. }
  destruct (Qle_bool (pow2 e) q) eqn:E.
  - apply Qle_bool_iff in E. split; assumption.
  - split; [exact Hlo|].
    replace (e - 1 + 1)%Z with e by lia.
    apply Qnot_le_lt. intros H. apply Qle_bool_iff in H. congruence.
Qed.

Lemma floor_log2_mono (x y : Q) :
  0 < x -> x <= y -> (floor_log2 x <= floor_log2 y)%Z.
Proof.
  intros Hx Hxy.
  destruct (floor_log2_spec x Hx) as [Lx _].
  destruct (floor_log2_spec y (Qlt_le_trans _ _ _ Hx Hxy)) as [_ Uy].
  assert (H : pow2 (floor_log2 x) < pow2 (floor_log2 y + 1)).
  { eapply Qle_lt_trans; [exact Lx|]. eapply Qle_lt_trans; [exact Hxy | exact Uy]. }
  apply pow2_lt_inv in H. lia.
Qed.

Ltac order_of H :=
  match type of H with
  | _ = Eq => apply Qeq_alt in H
  | _ = Lt => apply Qlt_alt in H
  | _ = Gt => apply Qgt_alt in H
  end.

(** Rounding to the nearest integer. *)
Lemma round_half_even_cases (q : Q) :
  (round_half_even q = Qfloor q /\ q - inject_Z (Qfloor q) <= 1 # 2)
  \/ (round_half_even q = (Qfloor q + 1)%Z /\ 1 # 2 <= q - inject_Z (Qfloor q)).
Proof.
  unfold round_half_even.
  destruct (Qcompare (q - inject_Z (Qfloor q)) (1 # 2)) eqn:E.
  - apply Qeq_alt in E. destruct (Z.even (Qfloor q)); [left | right];
      (split; [reflexivity | rewrite E; apply Qle_refl]).
  - apply Qlt_alt in E. left. split; [reflexivity | apply Qlt_le_weak; exact E].
  - apply Qgt_alt in E. right. split; [reflexivity | apply Qlt_le_weak; exact E].
Qed.

Lemma round_half_even_ge (q : Q) (z : Z) : inject_Z z <= q -> (z <= round_half_even q)%Z.
Proof.
  intros H. apply Qfloor_resp_le in H. rewrite Qfloor_Z in H.
  destruct (round_half_even_cases q) as [[E _]|[E _]]; rewrite E; lia.
Qed.

Lemma round_half_even_le (q : Q) (z : Z) : q <= inject_Z z -> (round_half_even q <= z)%Z.
Proof.
  intros H. pose proof (Qfloor_resp_le _ _ H) as Hf. rewrite Qfloor_Z in Hf.
  destruct (round_half_even_cases q) as [[E _]|[E Hh]]; rewrite E; [exact Hf|].
  assert (Hlt : inject_Z (Qfloor q) < inject_Z z).
  { apply Qlt_le_trans with q; [|exact H].
    apply Qlt_minus_iff. eapply Qlt_le_trans; [|exact Hh]. reflexivity. }
  rewrite <- Zlt_Qlt in Hlt. lia.
Qed.

Lemma round_half_even_mono (x y : Q) : x <= y -> (round_half_even x <= round_half_even y)%Z.
Proof.
  intros H. pose proof (Qfloor_resp_le _ _ H) as Hf.
  destruct (Z.eq_dec (Qfloor x) (Qfloor y)) as [Heq|Hne].
  - unfold round_half_even. rewrite <- Heq.
    assert (Hd : x - inject_Z (Qfloor x) <= y - inject_Z (Qfloor x)) by lra.
    destruct (Qcompare (x - inject_Z (Qfloor x)) (1 # 2)) eqn:Ex;
      destruct (Qcompare (y - inject_Z (Qfloor x)) (1 # 2)) eqn:Ey;
      order_of Ex; order_of Ey;
      try (destruct (Z.even (Qfloor x))); try lia; exfalso; lra.
  - destruct (round_half_even_cases x) as [[E _]|[E _]];
      destruct (round_half_even_cases y) as [[E' _]|[E' _]]; rewrite E, E'; lia.
Qed.

Lemma quantum_pos (q : Q) : 0 < quantum q.
Proof. apply pow2_pos. Qed.

Lemma round_magnitude_nonneg (q : Q) : 0 <= q -> 0 <= round_magnitude q.
Proof.
  intros H. unfold round_magnitude.
  apply Qmult_le_0_compat; [|apply Qlt_le_weak, quantum_pos].
  change 0 with (inject_Z 0). rewrite <- Zle_Qle. apply round_half_even_ge.
  apply Qle_shift_div_l; [apply quantum_pos|]. rewrite Qmult_0_l. exact H.
Qed.

(** Rounding keeps the order of positive numbers. *)
Lemma round_magnitude_mono (x y : Q) :
  0 < x -> x <= y -> round_magnitude x <= round_magnitude y.
Proof.
  intros Hx Hxy. pose proof (Qlt_le_trans _ _ _ Hx Hxy) as Hy.
  pose proof (floor_log2_mono x y Hx Hxy) as He.
  unfold round_magnitude, quantum.
  set (ex := Z.max (floor_log2 x) (-1022)). set (ey := Z.max (floor_log2 y) (-1022)).
  assert (Hexy : (ex <= ey)%Z) by (unfold ex, ey; lia).
  destruct (Z.eq_dec ex ey) as [Heq|Hne].
  - rewrite <- Heq. apply Qmult_le_compat_r; [|apply Qlt_le_weak, pow2_pos].
    rewrite <- Zle_Qle. apply round_half_even_mono.
    apply Qmult_le_compat_r; [exact Hxy|].
    apply Qlt_le_weak, Qinv_lt_0_compat, pow2_pos.
  - destruct (floor_log2_spec x Hx) as [_ Ux].
    destruct (floor_log2_spec y Hy) as [Ly _].
    assert (Hey : ey = floor_log2 y) by (unfold ex, ey in *; lia).
    apply Qle_trans with (pow2 (ex + 1)).
    + (* the smaller number rounds to at most the end of its binade *)
      apply Qle_trans with (inject_Z (2 ^ 53) * pow2 (ex - 52)).
      * apply Qmult_le_compat_r; [|apply Qlt_le_weak, pow2_pos].
        rewrite <- Zle_Qle. apply round_half_even_le.
        apply Qle_shift_div_r; [apply pow2_pos|].
        rewrite pow2_inject by lia. rewrite <- pow2_plus.
        replace (53 + (ex - 52))%Z with (ex + 1)%Z by lia.
        apply Qle_trans with (pow2 (floor_log2 x + 1)); [apply Qlt_le_weak; exact Ux|].
        apply pow2_le. unfold ex. lia.
      * rewrite pow2_inject by lia. rewrite <- pow2_plus.
        replace (53 + (ex - 52))%Z with (ex + 1)%Z by lia. apply Qle_refl.
    + (* the larger one to at least the start of its own *)
      apply Qle_trans with (pow2 ey); [apply pow2_le; lia|].
      apply Qle_trans with (inject_Z (2 ^ 52) * pow2 (ey - 52)).
      * rewrite pow2_inject by lia. rewrite <- pow2_plus.
        replace (52 + (ey - 52))%Z with ey by lia. apply Qle_refl.
      * apply Qmult_le_compat_r; [|apply Qlt_le_weak, pow2_pos].
        rewrite <- Zle_Qle. apply round_half_even_ge.
        apply Qle_shift_div_l; [apply pow2_pos|].
        rewrite pow2_inject by lia. rewrite <- pow2_plus.
        replace (52 + (ey - 52))%Z with ey by lia.
        rewrite Hey. exact Ly.
Qed.

(** Rounding keeps the order of non-negative numbers. *)
Lemma round_double_mono (x y : Q) :
  0 <= x -> x <= y -> round_double x <= round_double y.
Proof.
  intros Hx Hxy. unfold round_double. rewrite !Qred_correct.
  destruct (Qcompare x 0) eqn:Ex; order_of Ex;
    destruct (Qcompare y 0) eqn:Ey; order_of Ey; try (exfalso; lra).
  - apply Qle_refl.
  - apply round_magnitude_nonneg. lra.
  - apply round_magnitude_mono; assumption.
Qed.

Set Implicit Arguments.
Close Scope Q_scope.

Ltac run_world :=
  cbn beta iota zeta delta
    [bind ret raise try_except emit logger_info logger_error utcnow draw
     random_uniform random_random random_randint random_choice randbelow
     with_rng_pos with_clock_pos with_trace with_store
     rng rng_pos clock clock_pos s3_fault cloudwatch_fault trace store].

Section HandlerFacts.

Variable rt : Runtime.
Variable metrics_data : pyval -> pyval -> pyval -> list metric_datum.

(** [random.random()] is in [[0, 1)]. *)
Lemma unit_fraction_bounds (k : N) :
  (0 <= unit_fraction k)%Q /\ (unit_fraction k < 1)%Q.
Proof.
  unfold unit_fraction, Qle, Qlt; cbn [Qnum Qden].
  assert (H : (k mod 2 ^ 53 < 2 ^ 53)%N) by (apply N.mod_lt; discriminate).
  split.
  - rewrite Z.mul_0_l, Z.mul_1_r. apply N2Z.is_nonneg.
  - rewrite Z.mul_1_r, Z.mul_1_l. apply N2Z.inj_lt in H. exact H.
Qed.

(** [random.uniform(a, b)] for [0 <= a <= b]: the result is not below the
    float nearest to [a] and not above the float of [a + (b - a)]. *)
Lemma uniform_bounds (a b : Q) (k : N) :
  (0 <= a)%Q -> (a <= b)%Q ->
  (round_double a <= float_add a (float_mul (float_sub b a) (unit_fraction k)))%Q
  /\ (float_add a (float_mul (float_sub b a) (unit_fraction k))
      <= round_double (a + round_double (round_double (b - a))))%Q.
Proof.
  intros Ha Hab. destruct (unit_fraction_bounds k) as [H0 H1].
  unfold float_add, float_mul, float_sub.
  set (d := round_double (b - a)).
  assert (Hd : (0 <= d)%Q).
  { change 0%Q with (round_double 0). apply round_double_mono; lra. }
  set (t := round_double (d * unit_fraction k)).
  assert (Ht0 : (0 <= t)%Q).
  { change 0%Q with (round_double 0). apply round_double_mono; [lra | nra]. }
  assert (Ht1 : (t <= round_double d)%Q).
  { apply round_double_mono; nra. }
  split; apply round_double_mono; lra.
Qed.

(** A comparison of two numbers that are given. *)
Ltac by_computation := apply Qle_bool_iff; vm_compute; reflexivity.

(** A sleep of a length that is not negative is one effect. *)
Lemma time_sleep_nonneg (q : Q) :
  (0 <= q)%Q -> time_sleep q = emit (Slept q).
Proof.
  intros H. unfold time_sleep.
  destruct (Qle_bool 0 q) eqn:E; [reflexivity|].
  apply Qle_bool_iff in H. congruence.
Qed.

(** An analysis always returns, with the result and the world of the closed
    forms. *)
Lemma analyze_document_runs (document_id document_type : pyval) (w : World) :
  analyze_document rt document_id document_type w
  = (Ret (analysis_of rt document_id document_type w), after_analysis w).
Proof.
  unfold analyze_document. run_world.
  rewrite time_sleep_nonneg.
  - run_world. reflexivity.
  - destruct (@uniform_bounds (float_literal (5 # 100)) (float_literal (2 # 10))
                (rng w (rng_pos w))) as [Hlo _]; [by_computation | by_computation |].
    eapply Qle_trans; [|exact Hlo]. by_computation.
Qed.

(** ** Running a computation *)

Lemma bind_returns {W A B} (c : M W A) (k : A -> M W B) (w w' : W) (a : A) :
  c w = (Ret a, w') -> bind c k w = k a w'.
Proof. intros H. unfold bind. rewrite H. reflexivity. Qed.

Lemma bind_raises {W A B} (c : M W A) (k : A -> M W B) (w w' : W) (e : exn) :
  c w = (Raise e, w') -> bind c k w = (Raise e, w').
Proof. intros H. unfold bind. rewrite H. reflexivity. Qed.

(** ** Counting the calls of a trace *)

Lemma count_snoc (p : effect -> bool) (t : list effect) (e : effect) :
  count p (t ++ [e])%list = (count p t + (if p e then 1 else 0))%nat.
Proof.
  unfold count. rewrite filter_app, length_app. cbn [filter].
  destruct (p e); reflexivity.
Qed.

(** ** The handler, step by step *)

(** [send_metrics] returns whatever CloudWatch does, stores nothing and
    calls S3 not at all. *)
Lemma send_metrics_returns (document_type analysis_result source : pyval) (w : World) :
  exists w',
    send_metrics rt metrics_data document_type analysis_result source w = (Ret tt, w')
    /\ store w' = store w
    /\ count is_put_object (trace w') = count is_put_object (trace w)
    /\ exists t, trace w' = (trace w ++ t)%list.
Proof.
  unfold send_metrics, try_except, cloudwatch_put_metric_data.
  destruct (cloudwatch_fault w (count is_put_metric_data (trace w))) as [f|].
  - cbn [is_Exception exn_of]. run_world. eexists. split; [reflexivity|].
    run_world. repeat split.
    + rewrite count_snoc. cbn. lia.
    + eexists. reflexivity.
  - eexists. split; [reflexivity|]. run_world. repeat split.
    + rewrite count_snoc. cbn. lia.
    + eexists. reflexivity.
Qed.

Lemma s3_put_object_run (o : s3_object) (w : World) :
  s3_put_object o w
  = match s3_fault w (count is_put_object (trace w)) with
    | Some f => (Raise (exn_of f), with_trace (trace w ++ [PutObject o])%list w)
    | None =>
        (Ret tt, with_store (o :: store w) (with_trace (trace w ++ [PutObject o])%list w))
    end.
Proof. reflexivity. Qed.

(** The S3 call of a valid request is the call number
    [count is_put_object (trace w)] of the world the handler started in. *)
Lemma before_put_count (event : pydict) (w : World) :
  count is_put_object (trace (before_put rt event w)) = count is_put_object (trace w).
Proof.
  unfold before_put, after_analysis, entered. run_world.
  rewrite !count_snoc. cbn. lia.
Qed.

(** A body that decodes to a dict with a truthy [document_id] takes the
    handler through the analysis to its call of S3; what S3 does decides
    between the success response and the exception. *)
Lemma process_valid (event d : pydict) (text : string) (w : World) :
  dict_get event "body" (VStr "{}") = VStr text ->
  json_decode rt text = Some (VDict d) ->
  truthy (document_id_of d) = true ->
  process rt metrics_data event w
  = match s3_fault w (count is_put_object (trace w)) with
    | Some f => (Raise (exn_of f), put_made rt event d w)
    | None =>
        let w' := snd (send_metrics rt metrics_data (document_type_of d)
                         (result_of rt event d w) (source_of d)
                         (put_stored rt event d w)) in
        (Ret (success_response rt (response_body_of rt event d w)),
         with_trace (trace w' ++ [completion_log rt event d w])%list w')
    end.
Proof.
  intros Hbody Hdec Hid.
  unfold process. run_world. rewrite Hbody. unfold json_loads. rewrite Hdec.
  run_world. unfold py_get. run_world.
  fold (document_id_of d). rewrite Hid. cbn [negb].
  erewrite bind_returns by apply analyze_document_runs.
  erewrite bind_returns by (unfold utcnow; reflexivity).
  unfold bind at 1. rewrite s3_put_object_run.
  match goal with
  | |- context [s3_fault ?w2 (count is_put_object (trace ?w2))] =>
      change w2 with (before_put rt event w)
  end.
  rewrite before_put_count.
  change (s3_fault (before_put rt event w)) with (s3_fault w).
  destruct (s3_fault w (count is_put_object (trace w))) as [f|].
  - reflexivity.
  - unfold bind at 1.
    match goal with
    | |- context [send_metrics rt metrics_data ?a ?b ?c ?w3] =>
        change (send_metrics rt metrics_data a b c w3)
          with (send_metrics rt metrics_data (document_type_of d)
                  (result_of rt event d w) (source_of d) (put_stored rt event d w))
    end.
    destruct (send_metrics_returns (document_type_of d) (result_of rt event d w)
                (source_of d) (put_stored rt event d w)) as (w4 & E & _).
    rewrite E. cbn [snd].
    do 6 (erewrite bind_returns by reflexivity).
    run_world. reflexivity.
Qed.

(** The [except] clause: what CloudWatch does with the error metric
    decides whether the clause returns the response or raises. *)
Lemma on_error_run (e : exn) (w : World) :
  on_error rt e w
  = (match cloudwatch_fault w (count is_put_metric_data (trace w)) with
     | Some f => Raise (exn_of f)
     | None => Ret (server_error rt e)
     end, error_reported rt e w).
Proof.
  unfold on_error. run_world.
  unfold bind at 1. unfold cloudwatch_put_metric_data. run_world.
  rewrite count_snoc. cbn [is_put_metric_data]. rewrite Nat.add_0_r.
  unfold error_reported, time_at. rewrite <- app_assoc. cbn [app Nat.add].
  destruct (cloudwatch_fault w (count is_put_metric_data (trace w))); reflexivity.
Qed.

(** The handler on a valid request. *)
Lemma lambda_handler_valid (event d : pydict) (text : string) (w : World) :
  dict_get event "body" (VStr "{}") = VStr text ->
  json_decode rt text = Some (VDict d) ->
  truthy (document_id_of d) = true ->
  lambda_handler rt metrics_data event w
  = match s3_fault w (count is_put_object (trace w)) with
    | Some f => on_error rt (exn_of f) (put_made rt event d w)
    | None =>
        let w' := snd (send_metrics rt metrics_data (document_type_of d)
                         (result_of rt event d w) (source_of d)
                         (put_stored rt event d w)) in
        (Ret (success_response rt (response_body_of rt event d w)),
         with_trace (trace w' ++ [completion_log rt event d w])%list w')
    end.
Proof.
  intros Hbody Hdec Hid.
  unfold lambda_handler, try_except.
  rewrite (process_valid event w Hbody Hdec Hid).
  destruct (s3_fault w (count is_put_object (trace w))) as [f|]; reflexivity.
Qed.

(** The handler on a body that decodes to a dict without a truthy
    [document_id]: the response of the guard, and one log line. *)
Lemma lambda_handler_falsy_document_id (event d : pydict) (text : string) (w : World) :
  dict_get event "body" (VStr "{}") = VStr text ->
  json_decode rt text = Some (VDict d) ->
  truthy (document_id_of d) = false ->
  lambda_handler rt metrics_data event w = (Ret (bad_request rt), entered rt event w).
Proof.
  intros Hbody Hdec Hid.
  unfold lambda_handler, try_except, process. run_world.
  rewrite Hbody. unfold json_loads. rewrite Hdec. run_world.
  unfold py_get. run_world. fold (document_id_of d). rewrite Hid.
  reflexivity.
Qed.

(** The handler on a body that is a string [json.loads] refuses. *)
Lemma lambda_handler_undecodable (event : pydict) (text : string) (w : World) :
  dict_get event "body" (VStr "{}") = VStr text ->
  json_decode rt text = None ->
  lambda_handler rt metrics_data event w
  = on_error rt (Exn JSONDecodeError (json_decode_error rt text)) (entered rt event w).
Proof.
  intros Hbody Hdec.
  unfold lambda_handler, try_except, process. run_world.
  rewrite Hbody. unfold json_loads. rewrite Hdec. reflexivity.
Qed.

Lemma bad_request_shape :
  bad_request rt
  = VDict [("statusCode", VInt 400); ("body", VStr missing_document_id_body)].
Proof. reflexivity. Qed.

(** ** Substrings *)

Lemma prefix_append (s t : string) : String.prefix s (s ++ t) = true.
Proof.
  induction s as [|c s IH]; cbn.
  - destruct t; reflexivity.
  - destruct (ascii_dec c c) as [_|N]; [exact IH | contradiction].
Qed.

Lemma contains_infix (s pre post : string) : contains s (pre ++ s ++ post) = true.
Proof.
  induction pre as [|c pre IH].
  - cbn [append]. destruct (s ++ post) eqn:E; cbn [contains]; rewrite <- E;
      rewrite prefix_append; reflexivity.
  - cbn [append contains]. rewrite IH. apply orb_true_r.
Qed.

(** ** The claims on the handler *)

(** C1.  A request body in which [document_id] is absent or the empty
    string is answered with status 400 and the body
    [{"error": "document_id is required"}]; the handler does nothing but
    log the event: no analysis (the generator and the clock are untouched,
    nothing sleeps) and no call to S3 (the store is as it was). *)
Theorem lambda_handler_rejects_missing_document_id
    (event d : pydict) (text : string) (w : World) :
  dict_get event "body" (VStr "{}") = VStr text ->
  json_decode rt text = Some (VDict d) ->
  dict_lookup "document_id" d = None \/ dict_lookup "document_id" d = Some (VStr "") ->
  exists w',
    lambda_handler rt metrics_data event w
    = (Ret (VDict [("statusCode", VInt 400); ("body", VStr missing_document_id_body)]), w')
    /\ trace w' = (trace w ++ [entry_log rt event])%list
    /\ store w' = store w
    /\ rng_pos w' = rng_pos w
    /\ clock_pos w' = clock_pos w
    /\ count is_put_object (trace w') = count is_put_object (trace w)
    /\ count is_slept (trace w') = count is_slept (trace w).
Proof.
  intros Hbody Hdec Hid.
  assert (Hfalsy : truthy (document_id_of d) = false).
  { unfold document_id_of, dict_get. destruct Hid as [H|H]; rewrite H; reflexivity. }
  exists (entered rt event w). split.
  - rewrite <- bad_request_shape.
    apply (lambda_handler_falsy_document_id event w Hbody Hdec Hfalsy).
  - unfold entered. run_world. rewrite !count_snoc. cbn.
    repeat split; lia.
Qed.

(** What C1 excludes: an analysis always draws from the generator, reads
    the clock and sleeps. *)
Lemma analyze_document_leaves_marks (document_id document_type : pyval) (w : World) :
  let w' := snd (analyze_document rt document_id document_type w) in
  rng_pos w' = (8 + rng_pos w)%nat
  /\ clock_pos w' = (2 + clock_pos w)%nat
  /\ count is_slept (trace w') = S (count is_slept (trace w)).
Proof.
  rewrite analyze_document_runs. cbn [snd]. unfold after_analysis. run_world.
  rewrite count_snoc. cbn. repeat split; lia.
Qed.

(** C3.  The analysis step always returns, and in its result
    [latency_p50 <= latency_p95 <= latency_p99]: the three values are drawn
    from the disjoint ranges [0.1, 0.3], [0.4, 0.8] and [0.9, 1.5]. *)
Theorem analyze_document_latencies_ordered (document_id document_type : pyval) (w : World) :
  exists (fields metrics : pydict) (p50 p95 p99 : Q) (w' : World),
    analyze_document rt document_id document_type w = (Ret (VDict fields), w')
    /\ dict_lookup "metrics" fields = Some (VDict metrics)
    /\ dict_lookup "latency_p50" metrics = Some (VFloat p50)
    /\ dict_lookup "latency_p95" metrics = Some (VFloat p95)
    /\ dict_lookup "latency_p99" metrics = Some (VFloat p99)
    /\ (p50 <= p95)%Q /\ (p95 <= p99)%Q.
Proof.
  rewrite analyze_document_runs. unfold analysis_of.
  eexists _, (metrics_of w), _, _, _, _.
  split; [reflexivity|]. split; [reflexivity|].
  split; [reflexivity|]. split; [reflexivity|]. split; [reflexivity|].
  unfold uniform_at.
  destruct (@uniform_bounds (float_literal (1 # 10)) (float_literal (3 # 10))
              (draw_at w 5)) as [_ U1]; [by_computation | by_computation |].
  destruct (@uniform_bounds (float_literal (4 # 10)) (float_literal (8 # 10))
              (draw_at w 6)) as [L2 U2]; [by_computation | by_computation |].
  destruct (@uniform_bounds (float_literal (9 # 10)) (float_literal (15 # 10))
              (draw_at w 7)) as [L3 _]; [by_computation | by_computation |].
  split.
  - eapply Qle_trans; [exact U1|]. eapply Qle_trans; [|exact L2]. by_computation.
  - eapply Qle_trans; [exact U2|]. eapply Qle_trans; [|exact L3]. by_computation.
Qed.

Lemma count_app (p : effect -> bool) (t u : list effect) :
  count p (t ++ u)%list = (count p t + count p u)%nat.
Proof. unfold count. rewrite filter_app, length_app. reflexivity. Qed.

(** The world of the success response: the object is in the store, and the
    call that put it there is the one call to S3. *)
Lemma success_world (event d : pydict) (w : World) :
  let w1 := snd (send_metrics rt metrics_data (document_type_of d)
                   (result_of rt event d w) (source_of d) (put_stored rt event d w)) in
  let w' := with_trace (trace w1 ++ [completion_log rt event d w])%list w1 in
  store w' = object_of rt event d w :: store w
  /\ count is_put_object (trace w') = S (count is_put_object (trace w))
  /\ In (PutObject (object_of rt event d w)) (trace w').
Proof.
  destruct (send_metrics_returns (document_type_of d) (result_of rt event d w)
              (source_of d) (put_stored rt event d w)) as (w1 & E & Hs & Hc & t & Ht).
  rewrite E. cbn [snd]. run_world.
  split; [exact Hs|]. split.
  - rewrite count_snoc, Hc. cbn [completion_log is_put_object].
    unfold put_stored, put_made. run_world.
    rewrite count_snoc, before_put_count. cbn. lia.
  - rewrite Ht. unfold put_stored, put_made. run_world.
    apply in_or_app. left. apply in_or_app. left. apply in_or_app. right.
    left. reflexivity.
Qed.

(** On a valid request the handler calls S3 once, with the object of the
    closed form, whatever S3 and CloudWatch then do. *)
Lemma lambda_handler_valid_put (event d : pydict) (text : string) (w : World) :
  dict_get event "body" (VStr "{}") = VStr text ->
  json_decode rt text = Some (VDict d) ->
  truthy (document_id_of d) = true ->
  exists o w',
    lambda_handler rt metrics_data event w = (o, w')
    /\ count is_put_object (trace w') = S (count is_put_object (trace w))
    /\ In (PutObject (object_of rt event d w)) (trace w').
Proof.
  intros Hbody Hdec Hid.
  rewrite (lambda_handler_valid event w Hbody Hdec Hid).
  destruct (s3_fault w (count is_put_object (trace w))) as [f|].
  - rewrite on_error_run. eexists _, _. split; [reflexivity|].
    unfold error_reported, put_made. run_world. split.
    + rewrite count_app, count_snoc, before_put_count. cbn. lia.
    + apply in_or_app. left. apply in_or_app. right. left. reflexivity.
  - destruct (success_world event d w) as (_ & Hc & Hin).
    eexists _, _. split; [reflexivity|]. split; assumption.
Qed.

(** C2.  On a request whose [document_id] is a non-empty string, the result
    the handler obtains from the analysis and hands to S3 has an
    [analysis_id] that contains the [document_id], and a [document_id]
    field equal to it. *)
Theorem lambda_handler_result_identifies_document
    (event d : pydict) (text id : string) (w : World) :
  dict_get event "body" (VStr "{}") = VStr text ->
  json_decode rt text = Some (VDict d) ->
  dict_lookup "document_id" d = Some (VStr id) ->
  id <> "" ->
  exists (result : pydict) (analysis_id : string) (o : outcome pyval)
         (w' : World) (key : string),
    analyze_document rt (VStr id) (document_type_of d) (entered rt event w)
    = (Ret (VDict result), after_analysis (entered rt event w))
    /\ lambda_handler rt metrics_data event w = (o, w')
    /\ In (PutObject {| Bucket := RESULTS_BUCKET rt; Key := key;
                        Body := json_dumps rt None (VDict result);
                        ContentType := "application/json" |}) (trace w')
    /\ dict_lookup "analysis_id" result = Some (VStr analysis_id)
    /\ contains id analysis_id = true
    /\ dict_lookup "document_id" result = Some (VStr id).
Proof.
  intros Hbody Hdec Hlook Hne.
  assert (Hdoc : document_id_of d = VStr id).
  { unfold document_id_of, dict_get. rewrite Hlook. reflexivity. }
  assert (Hid : truthy (document_id_of d) = true).
  { rewrite Hdoc. cbn. destruct (String.eqb_spec id ""); [contradiction | reflexivity]. }
  destruct (lambda_handler_valid_put event w Hbody Hdec Hid) as (o & w' & E & _ & Hin).
  rewrite analyze_document_runs.
  eexists _, (analysis_id_of rt (VStr id) (entered rt event w)), o, w', _.
  split; [reflexivity|]. split; [exact E|]. split.
  - unfold object_of, result_of in Hin. rewrite Hdoc in Hin. exact Hin.
  - split; [reflexivity|]. split; [|reflexivity].
    unfold analysis_id_of. cbn [format_value]. apply contains_infix.
Qed.

(** C7.  A valid request whose object S3 accepts is answered with status
    200 and a body that holds the [document_id] of the request, the
    [analysis_id] of the result, the status [completed], a
    [result_location] that starts with [s3://], and a [metrics] object. *)
Theorem lambda_handler_success_response
    (event d : pydict) (text : string) (w : World) :
  dict_get event "body" (VStr "{}") = VStr text ->
  json_decode rt text = Some (VDict d) ->
  truthy (document_id_of d) = true ->
  s3_fault w (count is_put_object (trace w)) = None ->
  exists (body result metrics : pydict) (analysis_id location : string)
         (headers : pyval) (w' : World),
    lambda_handler rt metrics_data event w
    = (Ret (VDict [("statusCode", VInt 200); ("headers", headers);
                   ("body", VStr (json_dumps rt None (VDict body)))]), w')
    /\ analyze_document rt (document_id_of d) (document_type_of d) (entered rt event w)
       = (Ret (VDict result), after_analysis (entered rt event w))
    /\ dict_lookup "document_id" body = Some (document_id_of d)
    /\ dict_lookup "analysis_id" result = Some (VStr analysis_id)
    /\ dict_lookup "analysis_id" body = Some (VStr analysis_id)
    /\ dict_lookup "status" body = Some (VStr "completed")
    /\ dict_lookup "result_location" body = Some (VStr location)
    /\ String.prefix "s3://" location = true
    /\ dict_lookup "metrics" body = Some (VDict metrics).
Proof.
  intros Hbody Hdec Hid Hs3.
  rewrite (lambda_handler_valid event w Hbody Hdec Hid), Hs3.
  rewrite analyze_document_runs.
  unfold success_response, response_body_of.
  eexists _, _, _, _, _, _, _.
  split; [reflexivity|]. split; [reflexivity|].
  repeat (split; [reflexivity|]).
  split; [apply prefix_append | reflexivity].
Qed.

(** C8.  On a valid request whose object S3 accepts, the handler stores
    exactly one object, through its one call to S3: the key is
    [analysis/{document_id}/{timestamp}.json] for the ISO-8601 form of a
    reading of the clock, the content type is [application/json], and the
    body is the serialized result of the analysis. *)
Theorem lambda_handler_stores_result
    (event d : pydict) (text : string) (w : World) :
  dict_get event "body" (VStr "{}") = VStr text ->
  json_decode rt text = Some (VDict d) ->
  truthy (document_id_of d) = true ->
  s3_fault w (count is_put_object (trace w)) = None ->
  exists (result response : pyval) (now : datetime) (w' : World),
    lambda_handler rt metrics_data event w = (Ret response, w')
    /\ analyze_document rt (document_id_of d) (document_type_of d) (entered rt event w)
       = (Ret result, after_analysis (entered rt event w))
    /\ store w'
       = {| Bucket := RESULTS_BUCKET rt;
            Key := "analysis/" ++ format_value rt (document_id_of d) ++ "/"
                   ++ isoformat now ++ ".json";
            Body := json_dumps rt None result;
            ContentType := "application/json" |} :: store w
    /\ count is_put_object (trace w') = S (count is_put_object (trace w)).
Proof.
  intros Hbody Hdec Hid Hs3.
  rewrite (lambda_handler_valid event w Hbody Hdec Hid), Hs3.
  rewrite analyze_document_runs.
  destruct (success_world event d w) as (Hs & Hc & _).
  eexists _, _, (time_at (entered rt event w) 2), _.
  split; [reflexivity|]. split; [reflexivity|]. split; [exact Hs | exact Hc].
Qed.

(** The handler when its [try] raises: the [except] clause decides. *)
Lemma lambda_handler_on_failure (event : pydict) (w w1 : World) (e : exn) :
  process rt metrics_data event w = (Raise e, w1) ->
  is_Exception e = true ->
  lambda_handler rt metrics_data event w = on_error rt e w1.
Proof.
  intros Hp He. unfold lambda_handler, try_except. rewrite Hp, He. reflexivity.
Qed.

(** The part of C5 the code keeps: when CloudWatch takes the error metric,
    a failure of the [try] is answered with status 500 and the text of the
    exception, after one [AnalysisErrors] datum was sent. *)
Lemma lambda_handler_error_response (event : pydict) (w w1 : World) (e : exn) :
  process rt metrics_data event w = (Raise e, w1) ->
  is_Exception e = true ->
  cloudwatch_fault w1 (count is_put_metric_data (trace w1)) = None ->
  lambda_handler rt metrics_data event w = (Ret (server_error rt e), error_reported rt e w1).
Proof.
  intros Hp He Hcw.
  rewrite (lambda_handler_on_failure event w Hp He), on_error_run, Hcw.
  reflexivity.
Qed.

(** C5, as the code behaves.  The [except] clause of [lambda_handler] sends
    the [AnalysisErrors] metric with a bare call: when CloudWatch fails on
    that call, the exception of CloudWatch leaves the handler, and no
    response is returned for the failure that was being handled. *)
Theorem lambda_handler_error_metric_failure_escapes
    (event : pydict) (w w1 : World) (e : exn) (f : fault) :
  process rt metrics_data event w = (Raise e, w1) ->
  is_Exception e = true ->
  cloudwatch_fault w1 (count is_put_metric_data (trace w1)) = Some f ->
  lambda_handler rt metrics_data event w = (Raise (exn_of f), error_reported rt e w1)
  /\ In (PutMetricData (METRICS_NAMESPACE rt) [error_metric (time_at w1 0)])
        (trace (error_reported rt e w1)).
Proof.
  intros Hp He Hcw.
  rewrite (lambda_handler_on_failure event w Hp He), on_error_run, Hcw.
  split; [reflexivity|].
  unfold error_reported. run_world. apply in_or_app. right. right. left. reflexivity.
Qed.

(** The part of C10 the code keeps.  With a CloudWatch that takes the error
    metric, an event whose
    body is a string the decoder refuses is answered with status 500 and
    the body [{"error": "Internal server error", "message": <text of the
    exception>}], not with a 4xx; an event with no [body] key is read as the
    body [{}] and answered with the 400 of the missing [document_id]. *)
Theorem lambda_handler_undecodable_body_is_server_error (event : pydict) (w : World) :
  json_decode rt "{}" = Some (VDict []) ->
  cloudwatch_fault w (count is_put_metric_data (trace w)) = None ->
  (forall text : string,
     dict_lookup "body" event = Some (VStr text) ->
     json_decode rt text = None ->
     exists w',
       lambda_handler rt metrics_data event w
       = (Ret (VDict [("statusCode", VInt 500);
                      ("headers", VDict [("Content-Type", VStr "application/json")]);
                      ("body",
                       VStr (json_dumps rt None
                               (VDict [("error", VStr "Internal server error");
                                       ("message", VStr (json_decode_error rt text))])))]),
          w'))
  /\ (dict_lookup "body" event = None ->
      exists w',
        lambda_handler rt metrics_data event w
        = (Ret (VDict [("statusCode", VInt 400);
                       ("body", VStr missing_document_id_body)]), w')).
Proof.
  intros Hempty Hcw. split.
  - intros text Hbody Hdec.
    assert (Hget : dict_get event "body" (VStr "{}") = VStr text).
    { unfold dict_get. rewrite Hbody. reflexivity. }
    rewrite (lambda_handler_undecodable event w Hget Hdec), on_error_run.
    assert (Hn : count is_put_metric_data (trace (entered rt event w))
                 = count is_put_metric_data (trace w)).
    { unfold entered. run_world. rewrite count_snoc. cbn. lia. }
    rewrite Hn. change (cloudwatch_fault (entered rt event w)) with (cloudwatch_fault w).
    rewrite Hcw. eexists. reflexivity.
  - intros Hbody.
    assert (Hget : dict_get event "body" (VStr "{}") = VStr "{}").
    { unfold dict_get. rewrite Hbody. reflexivity. }
    exists (entered rt event w). rewrite <- bad_request_shape.
    apply (lambda_handler_falsy_document_id event w Hget Hempty). reflexivity.
Qed.

(** ** More on the handler *)

(** The handler on an event whose [body] is not a string. *)
Lemma lambda_handler_body_not_str (event : pydict) (v : pyval) (w : World) :
  dict_get event "body" (VStr "{}") = v ->
  is_str v = false ->
  lambda_handler rt metrics_data event w
  = on_error rt
      (Exn TypeError ("the JSON object must be str, bytes or bytearray, not " ++ type_name v))
      (entered rt event w).
Proof.
  intros Hb Hs. unfold lambda_handler, try_except, process. run_world.
  rewrite Hb. destruct v; try discriminate Hs; reflexivity.
Qed.

(** The handler on a body that decodes to something that is not a dict. *)
Lemma lambda_handler_body_not_object (event : pydict) (text : string) (v : pyval) (w : World) :
  dict_get event "body" (VStr "{}") = VStr text ->
  json_decode rt text = Some v ->
  is_dict v = false ->
  lambda_handler rt metrics_data event w
  = on_error rt
      (Exn AttributeError ("'" ++ type_name v ++ "' object has no attribute 'get'"))
      (entered rt event w).
Proof.
  intros Hb Hd Hv. unfold lambda_handler, try_except, process. run_world.
  rewrite Hb. unfold json_loads. rewrite Hd. run_world.
  destruct v; try discriminate Hv; reflexivity.
Qed.

Lemma entered_metric_count (event : pydict) (w : World) :
  count is_put_metric_data (trace (entered rt event w))
  = count is_put_metric_data (trace w).
Proof. unfold entered. run_world. rewrite count_snoc. cbn. lia. Qed.

Lemma put_made_metric_count (event d : pydict) (w : World) :
  count is_put_metric_data (trace (put_made rt event d w))
  = count is_put_metric_data (trace w).
Proof.
  unfold put_made, before_put, after_analysis, entered. run_world.
  rewrite !count_snoc. cbn. lia.
Qed.

(** The [except] clause entered right after the entry log. *)
Lemma on_error_entered (e : exn) (event : pydict) (w : World) :
  on_error rt e (entered rt event w)
  = (match cloudwatch_fault w (count is_put_metric_data (trace w)) with
     | Some f => Raise (exn_of f)
     | None => Ret (server_error rt e)
     end, error_reported rt e (entered rt event w)).
Proof. rewrite on_error_run, entered_metric_count. reflexivity. Qed.

(** The [except] clause entered after a refused call to S3. *)
Lemma on_error_put_made (e : exn) (event d : pydict) (w : World) :
  on_error rt e (put_made rt event d w)
  = (match cloudwatch_fault w (count is_put_metric_data (trace w)) with
     | Some f => Raise (exn_of f)
     | None => Ret (server_error rt e)
     end, error_reported rt e (put_made rt event d w)).
Proof. rewrite on_error_run, put_made_metric_count. reflexivity. Qed.

Lemma server_error_shape (e : exn) : server_error rt e = internal_error rt (exn_str e).
Proof. reflexivity. Qed.

(** X3.  A body that is valid JSON but not an object (a list, a number, a
    string, [null]) is not a client error for the handler: [body.get]
    raises [AttributeError], nothing is analysed or stored, and the
    [except] clause decides: the answer is the 500 with the text of that
    error when CloudWatch takes the error metric, and the exception of
    CloudWatch leaves the handler when it does not. *)
Theorem lambda_handler_non_object_body
    (event : pydict) (text : string) (v : pyval) (w : World) :
  dict_get event "body" (VStr "{}") = VStr text ->
  json_decode rt text = Some v ->
  is_dict v = false ->
  exists w',
    lambda_handler rt metrics_data event w
    = (match cloudwatch_fault w (count is_put_metric_data (trace w)) with
       | None =>
           Ret (internal_error rt ("'" ++ type_name v ++ "' object has no attribute 'get'"))
       | Some f => Raise (exn_of f)
       end, w')
    /\ store w' = store w
    /\ rng_pos w' = rng_pos w
    /\ count is_put_object (trace w') = count is_put_object (trace w).
Proof.
  intros Hb Hd Hv.
  rewrite (lambda_handler_body_not_object event w Hb Hd Hv), on_error_entered.
  eexists. split.
  - destruct (cloudwatch_fault w (count is_put_metric_data (trace w))); reflexivity.
  - unfold error_reported, entered. run_world.
    rewrite count_app, count_snoc. cbn. repeat split; lia.
Qed.

(** X4.  An event whose [body] is present but not a string, as the [null]
    of a request without a body, is not read as [{}] the way an event with
    no [body] key is: [json.loads] raises [TypeError], nothing is analysed
    or stored, and the [except] clause decides: the answer is the 500 with
    the text of that error when CloudWatch takes the error metric, and the
    exception of CloudWatch leaves the handler when it does not. *)
Theorem lambda_handler_non_string_body (event : pydict) (v : pyval) (w : World) :
  dict_lookup "body" event = Some v ->
  is_str v = false ->
  exists w',
    lambda_handler rt metrics_data event w
    = (match cloudwatch_fault w (count is_put_metric_data (trace w)) with
       | None =>
           Ret (internal_error rt
                  ("the JSON object must be str, bytes or bytearray, not " ++ type_name v))
       | Some f => Raise (exn_of f)
       end, w')
    /\ store w' = store w
    /\ rng_pos w' = rng_pos w.
Proof.
  intros Hb Hs.
  assert (Hget : dict_get event "body" (VStr "{}") = v).
  { unfold dict_get. rewrite Hb. reflexivity. }
  rewrite (lambda_handler_body_not_str event w Hget Hs), on_error_entered.
  eexists. split.
  - destruct (cloudwatch_fault w (count is_put_metric_data (trace w))); reflexivity.
  - split; reflexivity.
Qed.

Lemma entered_extends (event : pydict) (w : World) (t : list effect) :
  (trace (entered rt event w) ++ t)%list = (trace w ++ entry_log rt event :: t)%list.
Proof. unfold entered. run_world. rewrite <- app_assoc. reflexivity. Qed.

Lemma put_made_extends (event d : pydict) (w : World) (t : list effect) :
  exists t', (trace (put_made rt event d w) ++ t)%list
             = (trace w ++ entry_log rt event :: t')%list.
Proof.
  unfold put_made, before_put, after_analysis. run_world.
  rewrite <- !app_assoc, entered_extends. eexists. reflexivity.
Qed.

(** The handler on a valid request whose object S3 refuses. *)
Lemma lambda_handler_s3_refused (event d : pydict) (text : string) (w : World) (f : fault) :
  dict_get event "body" (VStr "{}") = VStr text ->
  json_decode rt text = Some (VDict d) ->
  truthy (document_id_of d) = true ->
  s3_fault w (count is_put_object (trace w)) = Some f ->
  lambda_handler rt metrics_data event w
  = on_error rt (exn_of f) (put_made rt event d w).
Proof.
  intros Hb Hd Hid Hs3.
  rewrite (lambda_handler_valid event w Hb Hd Hid), Hs3. reflexivity.
Qed.

Lemma handler_outcome_on_error (event : pydict) (w w1 : World) (e : exn) :
  lambda_handler rt metrics_data event w = on_error rt e w1 ->
  count is_put_metric_data (trace w1) = count is_put_metric_data (trace w) ->
  cloudwatch_fault w1 = cloudwatch_fault w ->
  (forall t, exists t', (trace w1 ++ t)%list = (trace w ++ entry_log rt event :: t')%list) ->
  handler_outcome_ok rt metrics_data event w.
Proof.
  intros E Hc Hf Ht. unfold handler_outcome_ok.
  rewrite E, on_error_run, Hc, Hf. cbn [fst snd]. split.
  - unfold error_reported. run_world. apply Ht.
  - destruct (cloudwatch_fault w (count is_put_metric_data (trace w))) as [f|].
    + exists f. split; reflexivity.
    + eexists _, 500%Z, _. split; [reflexivity|]. split; [reflexivity|].
      split; [right; right; reflexivity | reflexivity].
Qed.

(** X1.  Whatever the event and the world, the handler first logs the
    event; it then returns a response whose status is 200, 400 or 500 and
    whose body is a string, or it raises, and what it raises is the
    exception of CloudWatch on the error metric. *)
Theorem lambda_handler_outcomes (event : pydict) (w : World) :
  (exists t,
     trace (snd (lambda_handler rt metrics_data event w))
     = (trace w ++ entry_log rt event :: t)%list)
  /\ match fst (lambda_handler rt metrics_data event w) with
     | Ret response =>
         exists fields code body,
           response = VDict fields
           /\ dict_lookup "statusCode" fields = Some (VInt code)
           /\ (code = 200 \/ code = 400 \/ code = 500)%Z
           /\ dict_lookup "body" fields = Some (VStr body)
     | Raise e =>
         exists f,
           cloudwatch_fault w (count is_put_metric_data (trace w)) = Some f
           /\ e = exn_of f
     end.
Proof.
  change (handler_outcome_ok rt metrics_data event w).
  assert (Hentered : forall t, exists t',
            (trace (entered rt event w) ++ t)%list
            = (trace w ++ entry_log rt event :: t')%list).
  { intros t. eexists. apply entered_extends. }
  destruct (dict_get event "body" (VStr "{}")) as [| | | |text| |] eqn:Hb;
    try (eapply handler_outcome_on_error;
         [ apply (lambda_handler_body_not_str event w Hb); reflexivity
         | apply entered_metric_count | reflexivity | exact Hentered ]).
  destruct (json_decode rt text) as [v|] eqn:Hd.
  - destruct v as [| | | | | |d];
      try (eapply handler_outcome_on_error;
           [ apply (lambda_handler_body_not_object event w Hb Hd); reflexivity
           | apply entered_metric_count | reflexivity | exact Hentered ]).
    destruct (truthy (document_id_of d)) eqn:Hid.
    + destruct (s3_fault w (count is_put_object (trace w))) as [f|] eqn:Hs3.
      * eapply handler_outcome_on_error;
          [ apply (lambda_handler_s3_refused event w Hb Hd Hid Hs3)
          | apply put_made_metric_count | reflexivity | apply put_made_extends ].
      * unfold handler_outcome_ok.
        rewrite (lambda_handler_valid event w Hb Hd Hid), Hs3. cbn [fst snd].
        split.
        -- destruct (send_metrics_returns (document_type_of d) (result_of rt event d w)
                       (source_of d) (put_stored rt event d w))
             as (w1 & E & _ & _ & t & Ht).
           rewrite E. cbn [snd]. run_world. rewrite Ht.
           change (trace (put_stored rt event d w)) with (trace (put_made rt event d w)).
           rewrite <- app_assoc. apply put_made_extends.
        -- eexists _, 200%Z, _. split; [reflexivity|]. split; [reflexivity|].
           split; [left; reflexivity | reflexivity].
    + unfold handler_outcome_ok.
      rewrite (lambda_handler_falsy_document_id event w Hb Hd Hid). cbn [fst snd].
      split.
      * exists []. unfold entered. reflexivity.
      * eexists _, 400%Z, _. split; [reflexivity|]. split; [reflexivity|].
        split; [right; left; reflexivity | reflexivity].
  - eapply handler_outcome_on_error;
      [ apply (lambda_handler_undecodable event w Hb Hd)
      | apply entered_metric_count | reflexivity | exact Hentered ].
Qed.

(** X2.  When S3 refuses the object of a valid request, the answer is the
    500 with the text of the exception of S3; nothing is stored, but the
    analysis has run and is not undone, and one error metric is sent. *)
Theorem lambda_handler_storage_failure
    (event d : pydict) (text : string) (w : World) (f : fault) :
  dict_get event "body" (VStr "{}") = VStr text ->
  json_decode rt text = Some (VDict d) ->
  truthy (document_id_of d) = true ->
  s3_fault w (count is_put_object (trace w)) = Some f ->
  cloudwatch_fault w (count is_put_metric_data (trace w)) = None ->
  exists w',
    lambda_handler rt metrics_data event w = (Ret (internal_error rt (snd f)), w')
    /\ store w' = store w
    /\ rng_pos w' = (8 + rng_pos w)%nat
    /\ count is_slept (trace w') = S (count is_slept (trace w))
    /\ count is_put_metric_data (trace w') = S (count is_put_metric_data (trace w)).
Proof.
  intros Hb Hd Hid Hs3 Hcw.
  rewrite (lambda_handler_s3_refused event w Hb Hd Hid Hs3), on_error_put_made, Hcw.
  eexists. split; [reflexivity|].
  unfold error_reported, put_made, before_put, after_analysis, entered. run_world.
  rewrite !count_app. unfold count. cbn. repeat split; lia.
Qed.

(** X5.  For a body that is a JSON object, the handler answers with the
    400 of the missing [document_id] exactly when the [document_id] is
    falsy: absent, [null], the empty string, but also [0], [false], [[]]
    and [{}]. *)
Theorem lambda_handler_refuses_iff_falsy
    (event d : pydict) (text : string) (w : World) :
  dict_get event "body" (VStr "{}") = VStr text ->
  json_decode rt text = Some (VDict d) ->
  fst (lambda_handler rt metrics_data event w) = Ret (bad_request rt)
  <-> truthy (document_id_of d) = false.
Proof.
  intros Hb Hd. split.
  - intros H. destruct (truthy (document_id_of d)) eqn:Hid; [|reflexivity].
    exfalso. revert H.
    destruct (s3_fault w (count is_put_object (trace w))) as [f|] eqn:Hs3.
    + rewrite (lambda_handler_s3_refused event w Hb Hd Hid Hs3), on_error_put_made.
      cbn [fst].
      destruct (cloudwatch_fault w (count is_put_metric_data (trace w)));
        unfold server_error, bad_request; discriminate.
    + rewrite (lambda_handler_valid event w Hb Hd Hid), Hs3. cbn [fst].
      unfold success_response, bad_request. discriminate.
  - intros Hid. rewrite (lambda_handler_falsy_document_id event w Hb Hd Hid).
    reflexivity.
Qed.

Lemma randint_bounds (a b : Z) (k : N) :
  (a <= b)%Z ->
  (a <= a + Z.of_N (k mod Z.to_N (b - a + 1)) <= b)%Z.
Proof.
  intros Hab.
  assert (H : (k mod Z.to_N (b - a + 1) < Z.to_N (b - a + 1))%N).
  { apply N.mod_lt. lia. }
  set (m := (k mod Z.to_N (b - a + 1))%N) in *. lia.
Qed.

(** X6.  Every value the analysis fabricates lies in the range it is drawn
    from.  The score is between 85 and 99, [docs_per_hour] between 500 and
    2000, [docs_per_day] between 10000 and 45000, and each latency between
    the two floats its literals denote: those of 0.1 and 0.3, of 0.4 and
    0.8, of 0.9 and 1.5.  All are positive. *)
Theorem analyze_document_ranges (document_id document_type : pyval) (w : World) :
  exists (fields metrics : pydict) (score p50 p95 p99 : Q) (per_hour per_day : Z)
         (w' : World),
    analyze_document rt document_id document_type w = (Ret (VDict fields), w')
    /\ dict_lookup "compliance_score" fields = Some (VFloat score)
    /\ dict_lookup "metrics" fields = Some (VDict metrics)
    /\ dict_lookup "docs_per_hour" metrics = Some (VInt per_hour)
    /\ dict_lookup "docs_per_day" metrics = Some (VInt per_day)
    /\ dict_lookup "latency_p50" metrics = Some (VFloat p50)
    /\ dict_lookup "latency_p95" metrics = Some (VFloat p95)
    /\ dict_lookup "latency_p99" metrics = Some (VFloat p99)
    /\ (85 <= score)%Q /\ (score <= 99)%Q
    /\ (500 <= per_hour <= 2000)%Z
    /\ (10000 <= per_day <= 45000)%Z
    /\ (float_literal (1 # 10) <= p50)%Q /\ (p50 <= float_literal (3 # 10))%Q
    /\ (float_literal (4 # 10) <= p95)%Q /\ (p95 <= float_literal (8 # 10))%Q
    /\ (float_literal (9 # 10) <= p99)%Q /\ (p99 <= float_literal (15 # 10))%Q
    /\ (0 < p50)%Q /\ (0 < p95)%Q /\ (0 < p99)%Q.
Proof.
  rewrite analyze_document_runs. unfold analysis_of.
  eexists _, (metrics_of w), _, _, _, _, _, _, _.
  do 8 (split; [reflexivity|]).
  destruct (@uniform_bounds 85 99 (draw_at w 1)) as [L0 U0];
    [by_computation | by_computation |].
  destruct (@uniform_bounds (float_literal (1 # 10)) (float_literal (3 # 10))
              (draw_at w 5)) as [L1 U1]; [by_computation | by_computation |].
  destruct (@uniform_bounds (float_literal (4 # 10)) (float_literal (8 # 10))
              (draw_at w 6)) as [L2 U2]; [by_computation | by_computation |].
  destruct (@uniform_bounds (float_literal (9 # 10)) (float_literal (15 # 10))
              (draw_at w 7)) as [L3 U3]; [by_computation | by_computation |].
  unfold uniform_at, randint_at.
  split; [eapply Qle_trans; [|exact L0]; by_computation|].
  split; [eapply Qle_trans; [exact U0|]; by_computation|].
  split; [apply randint_bounds; lia|].
  split; [apply randint_bounds; lia|].
  split; [eapply Qle_trans; [|exact L1]; by_computation|].
  split; [eapply Qle_trans; [exact U1|]; by_computation|].
  split; [eapply Qle_trans; [|exact L2]; by_computation|].
  split; [eapply Qle_trans; [exact U2|]; by_computation|].
  split; [eapply Qle_trans; [|exact L3]; by_computation|].
  split; [eapply Qle_trans; [exact U3|]; by_computation|].
  assert (P : forall x : Q, (float_literal (1 # 10) <= x)%Q -> (0 < x)%Q).
  { intros x Hx. eapply Qlt_le_trans; [|exact Hx]. vm_compute. reflexivity. }
  split; [apply P; eapply Qle_trans; [|exact L1]; by_computation|].
  split; apply P; (eapply Qle_trans; [|eassumption]); by_computation.
Qed.

(** X7.  An analysis sleeps exactly once, for a positive time between the
    floats that the literals 0.05 and 0.2 denote, and has no other effect
    on the outside. *)
Theorem analyze_document_sleeps_once (document_id document_type : pyval) (w : World) :
  exists seconds : Q,
    trace (snd (analyze_document rt document_id document_type w))
    = (trace w ++ [Slept seconds])%list
    /\ (float_literal (5 # 100) <= seconds)%Q
    /\ (seconds <= float_literal (2 # 10))%Q
    /\ (0 < seconds)%Q
    /\ store (snd (analyze_document rt document_id document_type w)) = store w.
Proof.
  rewrite analyze_document_runs. cbn [snd]. unfold after_analysis. run_world.
  eexists. split; [reflexivity|].
  destruct (@uniform_bounds (float_literal (5 # 100)) (float_literal (2 # 10))
              (draw_at w 0)) as [L U]; [by_computation | by_computation |].
  unfold uniform_at.
  split; [eapply Qle_trans; [|exact L]; by_computation|].
  split; [eapply Qle_trans; [exact U|]; by_computation|].
  split; [|reflexivity].
  eapply Qlt_le_trans; [|exact L]. vm_compute. reflexivity.
Qed.

(** X8.  The [analysis_id] depends on nothing but the [document_id] and the
    epoch second of the clock: two analyses of one document whose readings
    fall in the same second get the same [analysis_id], whatever their
    document types and random draws. *)
Theorem analysis_id_same_second
    (document_id type1 type2 : pyval) (w1 w2 : World) :
  posix_seconds rt (time_at w1 1) = posix_seconds rt (time_at w2 1) ->
  exists (id : string) (r1 r2 : pydict),
    fst (analyze_document rt document_id type1 w1) = Ret (VDict r1)
    /\ fst (analyze_document rt document_id type2 w2) = Ret (VDict r2)
    /\ dict_lookup "analysis_id" r1 = Some (VStr id)
    /\ dict_lookup "analysis_id" r2 = Some (VStr id).
Proof.
  intros Hsec. rewrite !analyze_document_runs. unfold analysis_of. cbn [fst].
  eexists _, _, _. split; [reflexivity|]. split; [reflexivity|].
  split; [reflexivity|]. cbn [dict_lookup String.eqb Ascii.eqb Bool.eqb].
  unfold analysis_id_of. rewrite Hsec. reflexivity.
Qed.

(** X9.  The [result_location] of a success response names the object the
    handler stored: it is [s3://], the bucket of the object, a slash, and
    its key; the bucket is the one the environment configures. *)
Theorem lambda_handler_location_names_stored_object
    (event d : pydict) (text : string) (w : World) :
  dict_get event "body" (VStr "{}") = VStr text ->
  json_decode rt text = Some (VDict d) ->
  truthy (document_id_of d) = true ->
  s3_fault w (count is_put_object (trace w)) = None ->
  exists (body : pydict) (o : s3_object) (w' : World),
    lambda_handler rt metrics_data event w
    = (Ret (success_response rt (VDict body)), w')
    /\ store w' = o :: store w
    /\ Bucket o = environ_get rt "RESULTS_BUCKET" "vchasno-analysis-results"
    /\ dict_lookup "result_location" body
       = Some (VStr ("s3://" ++ Bucket o ++ "/" ++ Key o)).
Proof.
  intros Hb Hd Hid Hs3.
  rewrite (lambda_handler_valid event w Hb Hd Hid), Hs3.
  destruct (success_world event d w) as (Hs & _).
  eexists _, (object_of rt event d w), _.
  split; [reflexivity|]. split; [exact Hs|]. split; reflexivity.
Qed.

(** X10.  The [metrics] of a success response are four values of the
    stored result: [generation_rate] is its [docs_per_hour], and the three
    latencies are its latencies; its [docs_per_day] is not reported. *)
Theorem lambda_handler_reports_stored_metrics
    (event d : pydict) (text : string) (w : World) :
  dict_get event "body" (VStr "{}") = VStr text ->
  json_decode rt text = Some (VDict d) ->
  truthy (document_id_of d) = true ->
  s3_fault w (count is_put_object (trace w)) = None ->
  exists (body result stored reported : pydict) (o : s3_object) (w' : World),
    lambda_handler rt metrics_data event w
    = (Ret (success_response rt (VDict body)), w')
    /\ store w' = o :: store w
    /\ Body o = json_dumps rt None (VDict result)
    /\ dict_lookup "metrics" result = Some (VDict stored)
    /\ dict_lookup "metrics" body = Some (VDict reported)
    /\ map fst reported = ["generation_rate"; "latency_p50"; "latency_p95"; "latency_p99"]
    /\ dict_lookup "generation_rate" reported = dict_lookup "docs_per_hour" stored
    /\ dict_lookup "latency_p50" reported = dict_lookup "latency_p50" stored
    /\ dict_lookup "latency_p95" reported = dict_lookup "latency_p95" stored
    /\ dict_lookup "latency_p99" reported = dict_lookup "latency_p99" stored
    /\ dict_lookup "docs_per_day" stored <> None.
Proof.
  intros Hb Hd Hid Hs3.
  rewrite (lambda_handler_valid event w Hb Hd Hid), Hs3.
  destruct (success_world event d w) as (Hs & _).
  eexists _, _, (metrics_of (entered rt event w)), _, (object_of rt event d w), _.
  split; [reflexivity|]. split; [exact Hs|].
  split; [reflexivity|]. split; [reflexivity|]. split; [reflexivity|].
  repeat (split; [reflexivity|]). discriminate.
Qed.


(** X12.  The [document_type] of the result is the one of the body, whatever
    JSON value that is, and the string [contract] when the body has none. *)
Theorem lambda_handler_document_type_default
    (event d : pydict) (text : string) (w : World) :
  dict_get event "body" (VStr "{}") = VStr text ->
  json_decode rt text = Some (VDict d) ->
  truthy (document_id_of d) = true ->
  exists (result : pydict) (key : string) (o : outcome pyval) (w' : World),
    lambda_handler rt metrics_data event w = (o, w')
    /\ In (PutObject {| Bucket := RESULTS_BUCKET rt; Key := key;
                        Body := json_dumps rt None (VDict result);
                        ContentType := "application/json" |}) (trace w')
    /\ (dict_lookup "document_type" d = None ->
        dict_lookup "document_type" result = Some (VStr "contract"))
    /\ (forall v, dict_lookup "document_type" d = Some v ->
        dict_lookup "document_type" result = Some v).
Proof.
  intros Hb Hd Hid.
  destruct (lambda_handler_valid_put event w Hb Hd Hid) as (o & w' & E & _ & Hin).
  eexists _, _, o, w'. split; [exact E|]. split; [exact Hin|].
  cbn [dict_lookup String.eqb Ascii.eqb Bool.eqb].
  unfold document_type_of, dict_get.
  split; [intros H | intros v H]; rewrite H; reflexivity.
Qed.

(** C10, as the code behaves.  An event whose body is a string the decoder
    refuses never gets a 4xx: the [except] clause handles the
    [JSONDecodeError], and nothing is analysed or stored.  But the clause
    sends the error metric with a bare call, so the 500 with the body
    [{"error": "Internal server error", "message": <text of the exception>}]
    is returned only when CloudWatch takes that metric; when CloudWatch
    fails, its exception leaves the handler and the event gets no response
    at all.  An event with no [body] key is read as the body [{}] and
    answered with the 400 of the missing [document_id], whatever CloudWatch
    does. *)
Theorem lambda_handler_undecodable_body_outcome (event : pydict) (w : World) :
  (forall text : string,
     dict_lookup "body" event = Some (VStr text) ->
     json_decode rt text = None ->
     exists w',
       lambda_handler rt metrics_data event w
       = (match cloudwatch_fault w (count is_put_metric_data (trace w)) with
          | None =>
              Ret (VDict [("statusCode", VInt 500);
                          ("headers", VDict [("Content-Type", VStr "application/json")]);
                          ("body",
                           VStr (json_dumps rt None
                                   (VDict [("error", VStr "Internal server error");
                                           ("message", VStr (json_decode_error rt text))])))])
          | Some f => Raise (exn_of f)
          end, w')
       /\ store w' = store w
       /\ In (PutMetricData (METRICS_NAMESPACE rt)
                [error_metric (time_at (entered rt event w) 0)]) (trace w'))
  /\ (json_decode rt "{}" = Some (VDict []) ->
      dict_lookup "body" event = None ->
      exists w',
        lambda_handler rt metrics_data event w
        = (Ret (VDict [("statusCode", VInt 400);
                       ("body", VStr missing_document_id_body)]), w')).
Proof.
  split.
  - intros text Hbody Hdec.
    assert (Hget : dict_get event "body" (VStr "{}") = VStr text).
    { unfold dict_get. rewrite Hbody. reflexivity. }
    rewrite (lambda_handler_undecodable event w Hget Hdec), on_error_entered.
    eexists. split.
    + destruct (cloudwatch_fault w (count is_put_metric_data (trace w))); reflexivity.
    + split; [reflexivity|].
      unfold error_reported. run_world. apply in_or_app. right. right. left. reflexivity.
  - intros Hempty Hbody.
    assert (Hget : dict_get event "body" (VStr "{}") = VStr "{}").
    { unfold dict_get. rewrite Hbody. reflexivity. }
    exists (entered rt event w). rewrite <- bad_request_shape.
    apply (lambda_handler_falsy_document_id event w Hget Hempty). reflexivity.
Qed.

End HandlerFacts.

(** * Properties of the client *)

Import AnalyzeCli ClientSpec.

Ltac run_client :=
  cbn beta iota zeta delta
    [bind ret raise try_except AnalyzeCli.emit print print_err AnalyzeCli.utcnow
     sys_exit AnalyzeCli.with_clock_pos AnalyzeCli.with_trace
     network files AnalyzeCli.clock AnalyzeCli.clock_pos AnalyzeCli.trace
     url].

Section ClientFacts.

Variable rt : Runtime.
Variable endpoint_url : string.

Lemma sent_app (t u : list AnalyzeCli.effect) :
  sent (t ++ u)%list = (sent t ++ sent u)%list.
Proof.
  induction t as [|e t IH]; [reflexivity|].
  destruct e; cbn [app sent]; rewrite IH; reflexivity.
Qed.

(** The guarded block of a request: one exchange, then its attempt. *)
Lemma guarded_request_run (r : request) (w : AnalyzeCli.World) :
  bind (requests_send r)
       (fun resp => bind (raise_for_status (url r) resp) (fun _ => response_json resp)) w
  = (attempt (url r) (network w (List.length (sent (AnalyzeCli.trace w)))),
     AnalyzeCli.with_trace (AnalyzeCli.trace w ++ [Sent r])%list w).
Proof.
  unfold bind at 1. unfold requests_send, attempt.
  destruct (network w (List.length (sent (AnalyzeCli.trace w)))) as [resp|e];
    [|reflexivity].
  unfold bind, raise_for_status, response_json.
  destruct (http_error (url r) resp); reflexivity.
Qed.

(** [analyze_document], by the attempt of its one request. *)
Lemma analyze_document_run (doc_id doc_type : pyval) (w : AnalyzeCli.World) :
  let r := request_for endpoint_url doc_id doc_type
             (AnalyzeCli.clock w (AnalyzeCli.clock_pos w)) in
  let w1 := dispatched r w in
  AnalyzeCli.analyze_document endpoint_url doc_id doc_type w
  = match attempt (endpoint_url ++ "/analyze")
            (network w (List.length (sent (AnalyzeCli.trace w)))) with
    | Ret v => (Ret v, w1)
    | Raise e =>
        if is_RequestException e
        then (Ret VNone,
              AnalyzeCli.with_trace
                (AnalyzeCli.trace w1 ++ [Stderr ("Error analyzing document: " ++ exn_str e)])%list
                w1)
        else (Raise e, w1)
    end.
Proof.
  cbv zeta. unfold AnalyzeCli.analyze_document.
  erewrite bind_returns by (unfold AnalyzeCli.utcnow; reflexivity).
  unfold try_except, requests_post.
  match goal with
  | |- context [bind (requests_send ?r) ?k ?w1] =>
      change (bind (requests_send r) k w1)
        with (bind (requests_send r)
                (fun resp => bind (raise_for_status (url r) resp)
                               (fun _ => response_json resp)) w1);
      rewrite (guarded_request_run r w1)
  end.
  run_client.
  destruct (attempt (endpoint_url ++ "/analyze")
              (network w (List.length (sent (AnalyzeCli.trace w))))) as [v|e];
    [reflexivity|].
  destruct (is_RequestException e); reflexivity.
Qed.

(** [get_stats], by the attempt of its one request. *)
Lemma get_stats_run (w : AnalyzeCli.World) :
  let r := mkRequest GET (endpoint_url ++ "/stats") None [] in
  let w1 := AnalyzeCli.with_trace (AnalyzeCli.trace w ++ [Sent r])%list w in
  get_stats endpoint_url w
  = match attempt (endpoint_url ++ "/stats")
            (network w (List.length (sent (AnalyzeCli.trace w)))) with
    | Ret v => (Ret v, w1)
    | Raise e =>
        if is_RequestException e
        then (Ret VNone,
              AnalyzeCli.with_trace
                (AnalyzeCli.trace w1 ++ [Stderr ("Error fetching stats: " ++ exn_str e)])%list
                w1)
        else (Raise e, w1)
    end.
Proof.
  cbv zeta. unfold get_stats, try_except, requests_get.
  match goal with
  | |- context [bind (requests_send ?r) ?k ?w1] =>
      change (bind (requests_send r) k w1)
        with (bind (requests_send r)
                (fun resp => bind (raise_for_status (url r) resp)
                               (fun _ => response_json resp)) w1);
      rewrite (guarded_request_run r w1)
  end.
  run_client.
  destruct (attempt (endpoint_url ++ "/stats")
              (network w (List.length (sent (AnalyzeCli.trace w))))) as [v|e];
    [reflexivity|].
  destruct (is_RequestException e); reflexivity.
Qed.

Lemma sent_snoc_other (t : list AnalyzeCli.effect) (e : AnalyzeCli.effect) :
  is_sent e = false -> sent (t ++ [e])%list = sent t.
Proof.
  intros H. rewrite sent_app. destruct e; try discriminate H; apply app_nil_r.
Qed.

Lemma sent_snoc_sent (t : list AnalyzeCli.effect) (r : request) :
  sent (t ++ [Sent r])%list = (sent t ++ [r])%list.
Proof. rewrite sent_app. reflexivity. Qed.

(** The loop of a batch whose failures are all caught: it returns what it
    had collected followed by the truthy decoded bodies, in order, and
    sends one request per id, in order. *)
Lemma batch_loop_run (doc_type : pyval) (ids : list pyval) :
  forall (acc : list pyval) (w : AnalyzeCli.World),
    Forall caught
      (exchanges (endpoint_url ++ "/analyze") (network w)
         (List.length (sent (AnalyzeCli.trace w))) ids) ->
    exists w',
      batch_loop rt endpoint_url ids doc_type acc w
      = (Ret (acc ++ filter truthy
                       (successes
                          (exchanges (endpoint_url ++ "/analyze") (network w)
                             (List.length (sent (AnalyzeCli.trace w))) ids)))%list,
         w')
      /\ sent (AnalyzeCli.trace w')
         = (sent (AnalyzeCli.trace w)
            ++ batch_requests endpoint_url doc_type (AnalyzeCli.clock w)
                 (AnalyzeCli.clock_pos w) ids)%list.
Proof.
  induction ids as [|id rest IH]; intros acc w Hc.
  - exists w. cbn. rewrite !app_nil_r. split; reflexivity.
  - cbn [batch_loop exchanges batch_requests] in *.
    inversion Hc as [|o os Ho Hos]; subst.
    erewrite bind_returns by (unfold print, AnalyzeCli.emit; reflexivity).
    unfold bind at 1. rewrite analyze_document_run. run_client.
    rewrite (sent_snoc_other (AnalyzeCli.trace w)) by reflexivity.
    set (n := List.length (sent (AnalyzeCli.trace w))) in *.
    set (r := request_for endpoint_url id doc_type
                (AnalyzeCli.clock w (AnalyzeCli.clock_pos w))).
    destruct (attempt (endpoint_url ++ "/analyze") (network w n)) as [v|e].
    + match goal with
      | |- context [batch_loop rt endpoint_url rest doc_type ?acc' ?w1] =>
          destruct (IH acc' w1) as (w' & E & Hs)
      end.
      { unfold dispatched. run_client.
        rewrite sent_snoc_sent, (sent_snoc_other (AnalyzeCli.trace w)) by reflexivity.
        rewrite length_app, Nat.add_1_r. exact Hos. }
      exists w'. split.
      * rewrite E. unfold dispatched. run_client.
        rewrite sent_snoc_sent, (sent_snoc_other (AnalyzeCli.trace w)) by reflexivity.
        rewrite length_app, Nat.add_1_r. fold n.
        cbn [successes filter]. destruct (truthy v);
          [rewrite <- app_assoc|]; reflexivity.
      * rewrite Hs. unfold dispatched. run_client.
        rewrite sent_snoc_sent, (sent_snoc_other (AnalyzeCli.trace w)) by reflexivity.
        rewrite <- app_assoc. reflexivity.
    + cbn [caught] in Ho. rewrite Ho. cbn [truthy].
      match goal with
      | |- context [batch_loop rt endpoint_url rest doc_type ?acc' ?w1] =>
          destruct (IH acc' w1) as (w' & E & Hs)
      end.
      { unfold dispatched. run_client.
        rewrite (sent_snoc_other (_ ++ [Sent r])%list) by reflexivity.
        rewrite sent_snoc_sent, (sent_snoc_other (AnalyzeCli.trace w)) by reflexivity.
        rewrite length_app, Nat.add_1_r. exact Hos. }
      exists w'. split.
      * rewrite E. unfold dispatched. run_client.
        rewrite (sent_snoc_other (_ ++ [Sent r])%list) by reflexivity.
        rewrite sent_snoc_sent, (sent_snoc_other (AnalyzeCli.trace w)) by reflexivity.
        rewrite length_app, Nat.add_1_r. reflexivity.
      * rewrite Hs. unfold dispatched. run_client.
        rewrite (sent_snoc_other (_ ++ [Sent r])%list) by reflexivity.
        rewrite sent_snoc_sent, (sent_snoc_other (AnalyzeCli.trace w)) by reflexivity.
        rewrite <- app_assoc. reflexivity.
Qed.

Lemma batch_requests_ids (doc_type : pyval) (clk : nat -> datetime) (ids : list pyval) :
  forall pos,
    map requested_id (batch_requests endpoint_url doc_type clk pos ids) = map Some ids.
Proof.
  induction ids as [|id rest IH]; intros pos; [reflexivity|].
  cbn [batch_requests map]. rewrite IH. reflexivity.
Qed.

Lemma successes_failures (os : list (outcome pyval)) :
  List.length (successes os) = (List.length os - failures os)%nat.
Proof.
  assert (H : (List.length (successes os) + failures os = List.length os)%nat).
  { unfold failures. induction os as [|[v|e] os IH]; cbn in *; lia. }
  lia.
Qed.

Lemma exchanges_length (target : string) (net : nat -> exchange) (ids : list pyval) :
  forall n, List.length (exchanges target net n ids) = List.length ids.
Proof.
  induction ids as [|id rest IH]; intros n; [reflexivity|].
  cbn [exchanges List.length]. rewrite IH. reflexivity.
Qed.

Lemma filter_all {A} (p : A -> bool) (l : list A) :
  Forall (fun x => p x = true) l -> filter p l = l.
Proof.
  induction 1 as [|x l Hx _ IH]; [reflexivity|].
  cbn [filter]. rewrite Hx, IH. reflexivity.
Qed.

(** C4, as amended.  For a list of N ids of which K requests fail with an
    exception the client catches, [batch_analyze] sends one request per
    id, in input order, and returns, in input order, the decoded bodies of
    the N-K answered requests that are truthy; it returns exactly N-K
    results when every decoded body is truthy. *)
Theorem batch_analyze_collects_truthy_results
    (ids : list pyval) (doc_type : pyval) (w : AnalyzeCli.World) :
  let os := exchanges (endpoint_url ++ "/analyze") (network w)
              (List.length (sent (AnalyzeCli.trace w))) ids in
  Forall caught os ->
  exists (results : list pyval) (requests : list request) (w' : AnalyzeCli.World),
    batch_analyze rt endpoint_url (VList ids) doc_type w = (Ret (VList results), w')
    /\ results = filter truthy (successes os)
    /\ List.length (successes os) = (List.length ids - failures os)%nat
    /\ (Forall (fun v => truthy v = true) (successes os) ->
        List.length results = (List.length ids - failures os)%nat)
    /\ sent (AnalyzeCli.trace w') = (sent (AnalyzeCli.trace w) ++ requests)%list
    /\ map requested_id requests = map Some ids.
Proof.
  intros os Hc.
  destruct (batch_loop_run doc_type ids [] w Hc) as (w' & E & Hs).
  assert (Hlen : List.length (successes os) = (List.length ids - failures os)%nat).
  { rewrite successes_failures. unfold os. rewrite exchanges_length. reflexivity. }
  exists (filter truthy (successes os)),
         (batch_requests endpoint_url doc_type (AnalyzeCli.clock w)
            (AnalyzeCli.clock_pos w) ids), w'.
  split.
  - unfold batch_analyze, iterate. run_client.
    erewrite bind_returns by exact E. reflexivity.
  - split; [reflexivity|]. split; [exact Hlen|]. split.
    + intros Hall. rewrite (filter_all _ Hall). exact Hlen.
    + split; [exact Hs | apply batch_requests_ids].
Qed.

(** The part of C6 the code keeps: a failure that is a [RequestException]
    (of the transport, of the status, or of the decoding) ends in [None]
    and one line on the error stream. *)
Lemma analyze_document_catches_request_failures
    (doc_id doc_type : pyval) (w : AnalyzeCli.World) (e : exn) :
  attempt (endpoint_url ++ "/analyze")
    (network w (List.length (sent (AnalyzeCli.trace w)))) = Raise e ->
  is_RequestException e = true ->
  exists t,
    AnalyzeCli.analyze_document endpoint_url doc_id doc_type w
    = (Ret VNone,
       AnalyzeCli.mkWorld (network w) (files w) (AnalyzeCli.clock w)
         (S (AnalyzeCli.clock_pos w))
         (t ++ [Stderr ("Error analyzing document: " ++ exn_str e)])%list).
Proof.
  intros Ha He. rewrite analyze_document_run, Ha, He.
  eexists. reflexivity.
Qed.

Lemma get_stats_catches_request_failures (w : AnalyzeCli.World) (e : exn) :
  attempt (endpoint_url ++ "/stats")
    (network w (List.length (sent (AnalyzeCli.trace w)))) = Raise e ->
  is_RequestException e = true ->
  exists t,
    get_stats endpoint_url w
    = (Ret VNone,
       AnalyzeCli.mkWorld (network w) (files w) (AnalyzeCli.clock w)
         (AnalyzeCli.clock_pos w)
         (t ++ [Stderr ("Error fetching stats: " ++ exn_str e)])%list).
Proof.
  intros Ha He. rewrite get_stats_run, Ha, He.
  eexists. reflexivity.
Qed.

(** C6, as the code behaves.  [analyze_document] and [get_stats] catch
    [RequestException] only: when the transport raises anything else, as
    the test doubles of the repository do, the exception leaves the
    method, and neither [None] nor a diagnostic is produced. *)
Theorem client_lets_other_exceptions_through
    (doc_id doc_type : pyval) (w : AnalyzeCli.World) (e : exn) :
  network w (List.length (sent (AnalyzeCli.trace w))) = Failed e ->
  is_RequestException e = false ->
  fst (AnalyzeCli.analyze_document endpoint_url doc_id doc_type w) = Raise e
  /\ fst (get_stats endpoint_url w) = Raise e.
Proof.
  intros Hn He.
  rewrite analyze_document_run, get_stats_run. unfold attempt.
  rewrite Hn, He. split; reflexivity.
Qed.

(** ** More on the client *)

(** X13.  Each call of [analyze_document] sends exactly one request,
    whatever becomes of it: a POST to [{endpoint}/analyze] whose payload
    holds the two arguments, the clock reading of the call and the source
    [cli]; each call of [get_stats] sends exactly one GET to
    [{endpoint}/stats], with no payload. *)
Theorem client_sends_one_request (doc_id doc_type : pyval) (w : AnalyzeCli.World) :
  sent (AnalyzeCli.trace (snd (AnalyzeCli.analyze_document endpoint_url doc_id doc_type w)))
  = (sent (AnalyzeCli.trace w)
     ++ [mkRequest POST (endpoint_url ++ "/analyze")
           (Some (VDict [("document_id", doc_id);
                         ("document_type", doc_type);
                         ("timestamp",
                          VStr (isoformat (AnalyzeCli.clock w (AnalyzeCli.clock_pos w))));
                         ("source", VStr "cli")]))
           [("Content-Type", "application/json")]])%list
  /\ sent (AnalyzeCli.trace (snd (get_stats endpoint_url w)))
     = (sent (AnalyzeCli.trace w) ++ [mkRequest GET (endpoint_url ++ "/stats") None []])%list.
Proof.
  rewrite analyze_document_run, get_stats_run. split.
  - destruct (attempt (endpoint_url ++ "/analyze")
                (network w (List.length (sent (AnalyzeCli.trace w))))) as [v|e];
      [|destruct (is_RequestException e)];
      unfold dispatched; cbn [snd]; run_client;
      rewrite ?(sent_snoc_other (_ ++ [Sent _])%list) by reflexivity;
      apply sent_snoc_sent.
  - destruct (attempt (endpoint_url ++ "/stats")
                (network w (List.length (sent (AnalyzeCli.trace w))))) as [v|e];
      [|destruct (is_RequestException e)];
      cbn [snd]; run_client;
      rewrite ?(sent_snoc_other (_ ++ [Sent _])%list) by reflexivity;
      apply sent_snoc_sent.
Qed.

Lemma http_error_status (target : string) (r : response) :
  (is_error_status (status_code r) = true ->
   exists rest, http_error target r
                = Some (Exn HTTPError (str_of_Z (status_code r) ++ rest)))
  /\ (is_error_status (status_code r) = false -> http_error target r = None).
Proof.
  unfold is_error_status, http_error. cbv zeta.
  destruct ((400 <=? status_code r)%Z) eqn:E1;
    destruct ((status_code r <? 500)%Z) eqn:E2;
    destruct ((500 <=? status_code r)%Z) eqn:E3;
    destruct ((status_code r <? 600)%Z) eqn:E4;
    cbn [andb]; split; intros H; try discriminate H; try reflexivity;
    try (eexists; reflexivity); lia.
Qed.

(** X14.  An answer with a status from 400 to 599 is a failure whatever its
    body: [analyze_document] returns [None] and writes a diagnostic that
    starts with the status.  An answer with any other status, 3xx and 1xx
    included, is a success: its decoded body is returned and nothing is
    written. *)
Theorem analyze_document_by_status
    (doc_id doc_type : pyval) (w : AnalyzeCli.World) (r : response) :
  network w (List.length (sent (AnalyzeCli.trace w))) = Answered r ->
  (is_error_status (status_code r) = true ->
   exists rest t,
     fst (AnalyzeCli.analyze_document endpoint_url doc_id doc_type w) = Ret VNone
     /\ AnalyzeCli.trace (snd (AnalyzeCli.analyze_document endpoint_url doc_id doc_type w))
        = (t ++ [Stderr ("Error analyzing document: "
                         ++ str_of_Z (status_code r) ++ rest)])%list)
  /\ (is_error_status (status_code r) = false ->
      forall v, decoded r = Ret v ->
      exists q,
        AnalyzeCli.analyze_document endpoint_url doc_id doc_type w
        = (Ret v, AnalyzeCli.mkWorld (network w) (files w) (AnalyzeCli.clock w)
                    (S (AnalyzeCli.clock_pos w)) (AnalyzeCli.trace w ++ [Sent q])%list)).
Proof.
  intros Hn.
  destruct (http_error_status (endpoint_url ++ "/analyze") r) as [Herr Hok].
  split.
  - intros Hs. destruct (Herr Hs) as (rest & E).
    rewrite analyze_document_run. unfold attempt. rewrite Hn, E.
    cbn [is_RequestException fst snd exn_str]. run_client.
    eexists rest, _. split; reflexivity.
  - intros Hs v Hv.
    rewrite analyze_document_run. unfold attempt. rewrite Hn, (Hok Hs), Hv.
    eexists. reflexivity.
Qed.

(** The world after one round of the loop, for the three ways the request
    can end. *)
Ltac after_round w :=
  unfold dispatched; run_client;
  rewrite ?(sent_snoc_other (_ ++ [Sent _])%list) by reflexivity;
  rewrite ?sent_snoc_sent;
  rewrite ?(sent_snoc_other (AnalyzeCli.trace w)) by reflexivity;
  rewrite ?length_app, ?Nat.add_1_r.

Lemma batch_loop_aborts (doc_type id : pyval) (post : list pyval) (e : exn)
    (pre : list pyval) :
  forall (acc : list pyval) (w : AnalyzeCli.World),
    Forall caught
      (exchanges (endpoint_url ++ "/analyze") (network w)
         (List.length (sent (AnalyzeCli.trace w))) pre) ->
    attempt (endpoint_url ++ "/analyze")
      (network w (List.length (sent (AnalyzeCli.trace w)) + List.length pre)) = Raise e ->
    is_RequestException e = false ->
    exists w',
      batch_loop rt endpoint_url (pre ++ id :: post) doc_type acc w = (Raise e, w')
      /\ sent (AnalyzeCli.trace w')
         = (sent (AnalyzeCli.trace w)
            ++ batch_requests endpoint_url doc_type (AnalyzeCli.clock w)
                 (AnalyzeCli.clock_pos w) (pre ++ [id]))%list.
Proof.
  induction pre as [|p pre IH]; intros acc w Hc Ha He.
  - cbn [app batch_loop batch_requests List.length] in *.
    rewrite Nat.add_0_r in Ha.
    erewrite bind_returns by (unfold print, AnalyzeCli.emit; reflexivity).
    unfold bind at 1. rewrite analyze_document_run. run_client.
    rewrite (sent_snoc_other (AnalyzeCli.trace w)) by reflexivity.
    rewrite Ha, He. eexists. split; [reflexivity|].
    after_round w. reflexivity.
  - cbn [app batch_loop exchanges batch_requests List.length] in *.
    inversion Hc as [|o os Ho Hos]; subst.
    rewrite Nat.add_succ_r in Ha.
    erewrite bind_returns by (unfold print, AnalyzeCli.emit; reflexivity).
    unfold bind at 1. rewrite analyze_document_run. run_client.
    rewrite (sent_snoc_other (AnalyzeCli.trace w)) by reflexivity.
    set (n := List.length (sent (AnalyzeCli.trace w))) in *.
    destruct (attempt (endpoint_url ++ "/analyze") (network w n)) as [v|e0].
    + match goal with
      | |- context [batch_loop rt endpoint_url _ doc_type ?acc' ?w1] =>
          destruct (IH acc' w1) as (w' & E & Hs)
      end.
      { after_round w. exact Hos. }
      { after_round w. exact Ha. }
      { exact He. }
      exists w'. split; [exact E|].
      rewrite Hs. after_round w. rewrite <- app_assoc. reflexivity.
    + cbn [caught] in Ho. rewrite Ho.
      match goal with
      | |- context [batch_loop rt endpoint_url _ doc_type ?acc' ?w1] =>
          destruct (IH acc' w1) as (w' & E & Hs)
      end.
      { after_round w. exact Hos. }
      { after_round w. exact Ha. }
      { exact He. }
      exists w'. split; [exact E|].
      rewrite Hs. after_round w. rewrite <- app_assoc. reflexivity.
Qed.

(** X15.  A batch stops at the first request that fails with an exception
    the client does not catch: the exception leaves [batch_analyze], the
    results collected so far are not returned, and the ids after the
    failing one are never requested. *)
Theorem batch_analyze_aborts
    (pre post : list pyval) (id doc_type : pyval) (w : AnalyzeCli.World) (e : exn) :
  Forall caught
    (exchanges (endpoint_url ++ "/analyze") (network w)
       (List.length (sent (AnalyzeCli.trace w))) pre) ->
  attempt (endpoint_url ++ "/analyze")
    (network w (List.length (sent (AnalyzeCli.trace w)) + List.length pre)) = Raise e ->
  is_RequestException e = false ->
  exists (requests : list request) (w' : AnalyzeCli.World),
    batch_analyze rt endpoint_url (VList (pre ++ id :: post)) doc_type w = (Raise e, w')
    /\ sent (AnalyzeCli.trace w') = (sent (AnalyzeCli.trace w) ++ requests)%list
    /\ map requested_id requests = map Some (pre ++ [id]).
Proof.
  intros Hc Ha He.
  destruct (batch_loop_aborts doc_type id post pre [] w Hc Ha He) as (w' & E & Hs).
  eexists _, w'. split.
  - unfold batch_analyze, iterate. run_client.
    erewrite bind_raises by exact E. reflexivity.
  - split; [exact Hs | apply batch_requests_ids].
Qed.

Lemma batch_loop_effects (doc_type : pyval) (ids : list pyval) :
  forall (acc : list pyval) (w : AnalyzeCli.World),
    Forall caught
      (exchanges (endpoint_url ++ "/analyze") (network w)
         (List.length (sent (AnalyzeCli.trace w))) ids) ->
    AnalyzeCli.trace (snd (batch_loop rt endpoint_url ids doc_type acc w))
    = (AnalyzeCli.trace w
       ++ batch_effects rt endpoint_url doc_type (network w) (AnalyzeCli.clock w)
            (List.length (sent (AnalyzeCli.trace w))) (AnalyzeCli.clock_pos w) ids)%list.
Proof.
  induction ids as [|id rest IH]; intros acc w Hc.
  - cbn. rewrite app_nil_r. reflexivity.
  - cbn [batch_loop exchanges batch_effects] in *.
    inversion Hc as [|o os Ho Hos]; subst.
    erewrite bind_returns by (unfold print, AnalyzeCli.emit; reflexivity).
    unfold bind at 1. rewrite analyze_document_run. run_client.
    rewrite (sent_snoc_other (AnalyzeCli.trace w)) by reflexivity.
    set (n := List.length (sent (AnalyzeCli.trace w))) in *.
    destruct (attempt (endpoint_url ++ "/analyze") (network w n)) as [v|e].
    + rewrite IH by (after_round w; exact Hos).
      after_round w. fold n. rewrite <- !app_assoc. reflexivity.
    + cbn [caught] in Ho. rewrite Ho.
      rewrite IH by (after_round w; exact Hos).
      after_round w. fold n. rewrite <- !app_assoc. reflexivity.
Qed.

(** X16.  A batch whose failures are caught does this and nothing else to
    the outside, id by id and in input order: it prints the progress line
    of the id, sends the request for it, and, when the request failed,
    writes its diagnostic to the error stream before it goes on. *)
Theorem batch_analyze_effects (ids : list pyval) (doc_type : pyval) (w : AnalyzeCli.World) :
  Forall caught
    (exchanges (endpoint_url ++ "/analyze") (network w)
       (List.length (sent (AnalyzeCli.trace w))) ids) ->
  AnalyzeCli.trace (snd (batch_analyze rt endpoint_url (VList ids) doc_type w))
  = (AnalyzeCli.trace w
     ++ batch_effects rt endpoint_url doc_type (network w) (AnalyzeCli.clock w)
          (List.length (sent (AnalyzeCli.trace w))) (AnalyzeCli.clock_pos w) ids)%list.
Proof.
  intros Hc. rewrite <- (@batch_loop_effects doc_type ids [] w Hc).
  unfold batch_analyze, iterate. run_client. unfold bind.
  destruct (batch_loop rt endpoint_url ids doc_type [] w) as [[r|e] w']; reflexivity.
Qed.

(** The loop over a concatenation is the loop over the first list followed
    by the loop over the second. *)
Lemma batch_loop_app (doc_type : pyval) (xs ys : list pyval) :
  forall (acc : list pyval) (w : AnalyzeCli.World),
    batch_loop rt endpoint_url (xs ++ ys) doc_type acc w
    = bind (batch_loop rt endpoint_url xs doc_type acc)
           (fun r => batch_loop rt endpoint_url ys doc_type r) w.
Proof.
  induction xs as [|x xs IH]; intros acc w; [reflexivity|].
  cbn [app batch_loop]. unfold bind.
  destruct (print ("Analyzing document " ++ format_value rt x ++ "...") w) as [[u|e] w1];
    [|reflexivity].
  destruct (AnalyzeCli.analyze_document endpoint_url x doc_type w1) as [[v|e] w2];
    [|reflexivity].
  rewrite IH. unfold bind. reflexivity.
Qed.

(** The results a loop starts with come first in what it returns. *)
Lemma batch_loop_acc (doc_type : pyval) (ids : list pyval) :
  forall (acc : list pyval) (w : AnalyzeCli.World),
    batch_loop rt endpoint_url ids doc_type acc w
    = match batch_loop rt endpoint_url ids doc_type [] w with
      | (Ret r, w') => (Ret (acc ++ r)%list, w')
      | (Raise e, w') => (Raise e, w')
      end.
Proof.
  induction ids as [|id rest IH]; intros acc w.
  - cbn. rewrite app_nil_r. reflexivity.
  - cbn [batch_loop]. unfold bind.
    destruct (print ("Analyzing document " ++ format_value rt id ++ "...") w) as [[u|e] w1];
      [|reflexivity].
    destruct (AnalyzeCli.analyze_document endpoint_url id doc_type w1) as [[v|e] w2];
      [|reflexivity].
    rewrite (IH (if truthy v then (acc ++ [v])%list else acc)).
    rewrite (IH (if truthy v then ([] ++ [v])%list else [])).
    destruct (batch_loop rt endpoint_url rest doc_type [] w2) as [[r|e] w3];
      [|reflexivity].
    destruct (truthy v); [rewrite <- app_assoc|]; reflexivity.
Qed.

(** X17.  A batch carries nothing from one id to the next but the world: a
    batch over a concatenation returns the results of a batch over the
    first list followed by those of a batch over the second, run in the
    world the first leaves, and fails where the first of them fails. *)
Theorem batch_analyze_app (xs ys : list pyval) (doc_type : pyval) (w : AnalyzeCli.World) :
  batch_analyze rt endpoint_url (VList (xs ++ ys)) doc_type w
  = match batch_analyze rt endpoint_url (VList xs) doc_type w with
    | (Ret (VList r1), w1) =>
        match batch_analyze rt endpoint_url (VList ys) doc_type w1 with
        | (Ret (VList r2), w2) => (Ret (VList (r1 ++ r2)), w2)
        | failed => failed
        end
    | failed => failed
    end.
Proof.
  unfold batch_analyze, iterate. run_client.
  unfold bind at 1. rewrite batch_loop_app. unfold bind, ret.
  destruct (batch_loop rt endpoint_url xs doc_type [] w) as [[r1|e] w1];
    [|reflexivity].
  rewrite batch_loop_acc.
  destruct (batch_loop rt endpoint_url ys doc_type [] w1) as [[r2|e] w2]; reflexivity.
Qed.

End ClientFacts.

Section MainFacts.

Variable rt : Runtime.

(** C9.  When [--doc-id] is missing for [analyze], or [--batch-file] for
    [batch], the process writes a message to the error stream and exits
    with status 1, having sent no request; when the request of [analyze] or
    of [stats] fails with an exception the client catches, the process
    writes the diagnostic to the error stream, prints nothing, and exits
    with status 0. *)
Theorem main_exit_behavior (args : arguments) (w : AnalyzeCli.World) :
  (act args = analyze -> given (doc_id args) = None ->
   exit_status (fst (main rt args w)) = 1%Z
   /\ AnalyzeCli.trace (snd (main rt args w))
      = (AnalyzeCli.trace w ++ [Stderr "Error: --doc-id required for analyze action"])%list)
  /\ (act args = batch -> given (batch_file args) = None ->
      exit_status (fst (main rt args w)) = 1%Z
      /\ AnalyzeCli.trace (snd (main rt args w))
         = (AnalyzeCli.trace w ++ [Stderr "Error: --batch-file required for batch action"])%list)
  /\ (forall (id : string) (e : exn),
        act args = analyze -> given (doc_id args) = Some id ->
        attempt (endpoint args ++ "/analyze")
          (network w (List.length (sent (AnalyzeCli.trace w)))) = Raise e ->
        is_RequestException e = true ->
        exit_status (fst (main rt args w)) = 0%Z
        /\ exists r,
             AnalyzeCli.trace (snd (main rt args w))
             = (AnalyzeCli.trace w
                ++ [Sent r; Stderr ("Error analyzing document: " ++ exn_str e)])%list)
  /\ (forall e : exn,
        act args = stats ->
        attempt (endpoint args ++ "/stats")
          (network w (List.length (sent (AnalyzeCli.trace w)))) = Raise e ->
        is_RequestException e = true ->
        exit_status (fst (main rt args w)) = 0%Z
        /\ exists r,
             AnalyzeCli.trace (snd (main rt args w))
             = (AnalyzeCli.trace w
                ++ [Sent r; Stderr ("Error fetching stats: " ++ exn_str e)])%list).
Proof.
  split; [|split; [|split]].
  - intros Hact Hgiven. unfold main. rewrite Hact, Hgiven. split; reflexivity.
  - intros Hact Hgiven. unfold main. rewrite Hact, Hgiven. split; reflexivity.
  - intros id e Hact Hgiven Hfail Hcaught.
    unfold main. rewrite Hact, Hgiven. unfold bind.
    rewrite analyze_document_run, Hfail, Hcaught. split; [reflexivity|].
    unfold dispatched. run_client. rewrite <- app_assoc. eexists. reflexivity.
  - intros e Hact Hfail Hcaught.
    unfold main. rewrite Hact. unfold bind.
    rewrite get_stats_run, Hfail, Hcaught. split; [reflexivity|].
    run_client. rewrite <- app_assoc. eexists. reflexivity.
Qed.

(** ** More on the command line *)

(** X18.  When the request of [analyze] or of [stats] succeeds, the process
    exits with status 0 and prints the decoded body, indented by two
    spaces, only if that body is truthy: on an empty object, an empty
    list, [null], [false] or zero it prints nothing at all. *)
Theorem main_prints_truthy_result (args : arguments) (w : AnalyzeCli.World) (v : pyval) :
  (exists id, act args = analyze /\ given (doc_id args) = Some id
              /\ attempt (endpoint args ++ "/analyze")
                   (network w (List.length (sent (AnalyzeCli.trace w)))) = Ret v)
  \/ (act args = stats
      /\ attempt (endpoint args ++ "/stats")
           (network w (List.length (sent (AnalyzeCli.trace w)))) = Ret v) ->
  exit_status (fst (main rt args w)) = 0%Z
  /\ exists r,
       AnalyzeCli.trace (snd (main rt args w))
       = (AnalyzeCli.trace w
          ++ Sent r :: (if truthy v then [Stdout (json_dumps rt (Some 2%nat) v)] else []))%list.
Proof.
  intros [(id & Hact & Hgiven & Ha) | (Hact & Ha)].
  - unfold main. rewrite Hact, Hgiven. unfold bind.
    rewrite analyze_document_run, Ha. unfold print_json, dispatched.
    destruct (truthy v); unfold print, AnalyzeCli.emit, ret; cbn [fst snd]; run_client.
    + split; [reflexivity|]. rewrite <- app_assoc. eexists. reflexivity.
    + split; [reflexivity|]. eexists. reflexivity.
  - unfold main. rewrite Hact. unfold bind.
    rewrite get_stats_run, Ha. unfold print_json.
    destruct (truthy v); unfold print, AnalyzeCli.emit, ret; cbn [fst snd]; run_client.
    + split; [reflexivity|]. rewrite <- app_assoc. eexists. reflexivity.
    + split; [reflexivity|]. eexists. reflexivity.
Qed.

(** The [batch] action up to its loop. *)
Lemma main_batch_run (args : arguments) (w : AnalyzeCli.World) (path : string) :
  act args = batch ->
  given (batch_file args) = Some path ->
  main rt args w
  = match files w path with
    | Raise e => (Raise e, w)
    | Ret text =>
        match json_decode rt text with
        | None => (Raise (Exn JSONDecodeError (json_decode_error rt text)), w)
        | Some doc_ids =>
            bind (batch_analyze rt (endpoint args) doc_ids (VStr (doc_type args)))
                 (fun results => print_json rt results) w
        end
    end.
Proof.
  intros Hact Hgiven. unfold main. rewrite Hact, Hgiven.
  unfold bind at 1. unfold read_file. cbv beta.
  destruct (files w path) as [text|e]; [|reflexivity].
  unfold bind at 1. unfold json_loads.
  destruct (json_decode rt text); reflexivity.
Qed.

(** X19.  A batch whose file cannot be used ends before anything is printed
    or sent: the exception of [open] leaves [main] when the file cannot be
    read, [JSONDecodeError] when its text is not JSON, and [TypeError] when
    the JSON is a number, a boolean or [null]; the two last exit with
    status 1. *)
Theorem main_batch_unusable_file (args : arguments) (w : AnalyzeCli.World) (path : string) :
  act args = batch ->
  given (batch_file args) = Some path ->
  (forall e, files w path = Raise e -> main rt args w = (Raise e, w))
  /\ (forall text,
        files w path = Ret text -> json_decode rt text = None ->
        main rt args w = (Raise (Exn JSONDecodeError (json_decode_error rt text)), w)
        /\ exit_status (fst (main rt args w)) = 1%Z)
  /\ (forall text v,
        files w path = Ret text -> json_decode rt text = Some v ->
        is_iterable v = false ->
        main rt args w
        = (Raise (Exn TypeError ("'" ++ type_name v ++ "' object is not iterable")), w)
        /\ exit_status (fst (main rt args w)) = 1%Z).
Proof.
  intros Hact Hgiven. rewrite (@main_batch_run args w path Hact Hgiven).
  split; [|split].
  - intros e Hf. rewrite Hf. reflexivity.
  - intros text Hf Hd. rewrite Hf, Hd. split; reflexivity.
  - intros text v Hf Hd Hv. rewrite Hf, Hd.
    destruct v; try discriminate Hv; split; reflexivity.
Qed.

(** X20.  A batch over a list always ends by printing its results, indented
    by two spaces, and exits with status 0, however many requests failed
    with a failure the client catches: when all of them fail it prints the
    empty list. *)
Theorem main_batch_prints_results
    (args : arguments) (w : AnalyzeCli.World) (path text : string) (ids : list pyval) :
  act args = batch ->
  given (batch_file args) = Some path ->
  files w path = Ret text ->
  json_decode rt text = Some (VList ids) ->
  Forall caught
    (exchanges (endpoint args ++ "/analyze") (network w)
       (List.length (sent (AnalyzeCli.trace w))) ids) ->
  exit_status (fst (main rt args w)) = 0%Z
  /\ exists t,
       AnalyzeCli.trace (snd (main rt args w))
       = (t ++ [Stdout (json_dumps rt (Some 2%nat)
                          (VList (filter truthy
                                    (successes
                                       (exchanges (endpoint args ++ "/analyze") (network w)
                                          (List.length (sent (AnalyzeCli.trace w)))
                                          ids)))))])%list.
Proof.
  intros Hact Hgiven Hf Hd Hc.
  destruct (@batch_loop_run rt (endpoint args) (VStr (doc_type args)) ids [] w Hc)
    as (w' & E & _).
  rewrite (@main_batch_run args w path Hact Hgiven), Hf, Hd.
  unfold batch_analyze, iterate, bind, ret. rewrite E.
  unfold print_json, print, AnalyzeCli.emit. cbn [fst snd]. run_client.
  split; [reflexivity|]. eexists. reflexivity.
Qed.

End MainFacts.

(** * The properties on the examples *)

Import Examples.

(** C1 on the event with no body, in the calm world. *)
Lemma lambda_handler_rejects_missing_document_id_witness :
  fst (lambda_handler runtime no_metrics [] calm)
  = Ret (VDict [("statusCode", VInt 400); ("body", VStr missing_document_id_body)])
  /\ LambdaHandler.store (snd (lambda_handler runtime no_metrics [] calm)) = [].
Proof.
  destruct (@lambda_handler_rejects_missing_document_id
              runtime no_metrics [] [] "{}" calm)
    as (w' & E & _ & Hs & _).
  - reflexivity.
  - reflexivity.
  - left. reflexivity.
  - rewrite E. split; [reflexivity | exact Hs].
Defined.

(** C2 on the request for [doc-123]. *)
Lemma lambda_handler_result_identifies_document_witness :
  exists (result : pydict) (analysis_id : string),
    fst (LambdaHandler.analyze_document runtime (VStr "doc-123") (VStr "contract")
           (entered runtime event_doc123 calm)) = Ret (VDict result)
    /\ dict_lookup "analysis_id" result = Some (VStr analysis_id)
    /\ contains "doc-123" analysis_id = true
    /\ dict_lookup "document_id" result = Some (VStr "doc-123").
Proof.
  destruct (@lambda_handler_result_identifies_document
              runtime no_metrics event_doc123 doc123 doc123_text "doc-123" calm)
    as (result & aid & o & w' & key & E & _ & _ & Ha & Hc & Hd).
  - reflexivity.
  - reflexivity.
  - reflexivity.
  - discriminate.
  - exists result, aid. change (document_type_of doc123) with (VStr "contract") in E.
    rewrite E. repeat split; assumption.
Defined.

(** C7 on the request for [doc-123], in the calm world. *)
Lemma lambda_handler_success_response_witness :
  exists (body : pydict) (headers : pyval),
    fst (lambda_handler runtime no_metrics event_doc123 calm)
    = Ret (VDict [("statusCode", VInt 200); ("headers", headers);
                  ("body", VStr (json_dumps runtime None (VDict body)))])
    /\ dict_lookup "document_id" body = Some (VStr "doc-123")
    /\ dict_lookup "status" body = Some (VStr "completed").
Proof.
  destruct (@lambda_handler_success_response
              runtime no_metrics event_doc123 doc123 doc123_text calm)
    as (body & result & metrics & aid & loc & headers & w' & E & _ & Hd & _ & _ & Hs & _).
  - reflexivity.
  - reflexivity.
  - reflexivity.
  - reflexivity.
  - exists body, headers. rewrite E. repeat split; assumption.
Defined.

(** C8 on the request for [doc-123], in the calm world. *)
Lemma lambda_handler_stores_result_witness :
  exists (now : datetime) (body : string),
    LambdaHandler.store (snd (lambda_handler runtime no_metrics event_doc123 calm))
    = [ {| Bucket := "vchasno-analysis-results";
           Key := "analysis/doc-123/" ++ isoformat now ++ ".json";
           Body := body;
           ContentType := "application/json" |} ].
Proof.
  destruct (@lambda_handler_stores_result
              runtime no_metrics event_doc123 doc123 doc123_text calm)
    as (result & response & now & w' & E & _ & Hs & _).
  - reflexivity.
  - reflexivity.
  - reflexivity.
  - reflexivity.
  - rewrite E. cbn [snd]. rewrite Hs. exists now. eexists. reflexivity.
Defined.

(** C5 on a body that is not JSON, while CloudWatch throttles. *)
Lemma lambda_handler_error_metric_failure_escapes_witness :
  fst (lambda_handler runtime no_metrics event_garbage cloudwatch_down)
  = Raise (Exn ClientError
             "An error occurred (Throttling) when calling the PutMetricData operation").
Proof.
  destruct (@lambda_handler_error_metric_failure_escapes
              runtime no_metrics event_garbage cloudwatch_down
              (entered runtime event_garbage cloudwatch_down)
              (Exn JSONDecodeError "Expecting value: line 1 column 1 (char 0)")
              (ClientError,
               "An error occurred (Throttling) when calling the PutMetricData operation"))
    as (E & _).
  - reflexivity.
  - reflexivity.
  - reflexivity.
  - rewrite E. reflexivity.
Defined.

(** The part of C10 the code keeps, on a body that is not JSON and on the
    event with no body. *)
Lemma lambda_handler_undecodable_body_is_server_error_witness :
  (exists headers body,
     fst (lambda_handler runtime no_metrics event_garbage calm)
     = Ret (VDict [("statusCode", VInt 500); ("headers", headers); ("body", body)]))
  /\ fst (lambda_handler runtime no_metrics [] calm)
     = Ret (VDict [("statusCode", VInt 400); ("body", VStr missing_document_id_body)]).
Proof.
  split.
  - destruct (@lambda_handler_undecodable_body_is_server_error
                runtime no_metrics event_garbage calm eq_refl eq_refl) as (H500 & _).
    destruct (H500 "not json" eq_refl eq_refl) as (w' & E).
    rewrite E. eexists _, _. reflexivity.
  - destruct (@lambda_handler_undecodable_body_is_server_error
                runtime no_metrics [] calm eq_refl eq_refl) as (_ & H400).
    destruct (H400 eq_refl) as (w' & E).
    rewrite E. reflexivity.
Defined.

(** C4, as stated, fails: one id, no failed request, and a server that
    answers 200 with the body [{}]; the batch returns no result, not one. *)
Lemma batch_analyze_drops_falsy_answer :
  exists results : list pyval,
    fst (batch_analyze runtime api (VList [VStr "a"]) (VStr "contract") empty_answers)
    = Ret (VList results)
    /\ failures (exchanges (api ++ "/analyze") (network empty_answers) 0 [VStr "a"]) = 0%nat
    /\ List.length results <> (List.length [VStr "a"] - 0)%nat.
Proof.
  exists []. split; [vm_compute; reflexivity|].
  split; [vm_compute; reflexivity|]. cbn. discriminate.
Qed.

(** C4, as amended, on the batch [a], [b], [c] whose second request fails. *)
Lemma batch_analyze_collects_truthy_results_witness :
  fst (batch_analyze runtime api (VList abc) (VStr "contract") second_fails)
  = Ret (VList [VDict [("request", VInt 0)]; VDict [("request", VInt 2)]])
  /\ failures (exchanges (api ++ "/analyze") (network second_fails) 0 abc) = 1%nat.
Proof.
  destruct (@batch_analyze_collects_truthy_results
              runtime api abc (VStr "contract") second_fails)
    as (results & requests & w' & E & Hr & _).
  - repeat constructor.
  - rewrite E, Hr. split; reflexivity.
Defined.

(** C6 on the test double whose transport raises a plain [Exception]. *)
Lemma client_lets_other_exceptions_through_witness :
  fst (AnalyzeCli.analyze_document api (VStr "doc-456") (VStr "compliance") mocked_failure)
  = Raise (Exn Exception "API Error")
  /\ fst (get_stats api mocked_failure) = Raise (Exn Exception "API Error").
Proof.
  apply (@client_lets_other_exceptions_through
           api (VStr "doc-456") (VStr "compliance") mocked_failure
           (Exn Exception "API Error")).
  - reflexivity.
  - reflexivity.
Defined.

(** C9 on the four command lines, with no server listening. *)
Lemma main_exit_behavior_witness :
  exit_status (fst (main runtime analyze_without_id offline)) = 1%Z
  /\ exit_status (fst (main runtime batch_without_file offline)) = 1%Z
  /\ exit_status (fst (main runtime analyze_doc789 offline)) = 0%Z
  /\ exit_status (fst (main runtime ask_stats offline)) = 0%Z.
Proof.
  split; [|split; [|split]].
  - destruct (@main_exit_behavior runtime analyze_without_id offline) as (H & _).
    destruct (H eq_refl eq_refl) as (E & _). exact E.
  - destruct (@main_exit_behavior runtime batch_without_file offline) as (_ & H & _).
    destruct (H eq_refl eq_refl) as (E & _). exact E.
  - destruct (@main_exit_behavior runtime analyze_doc789 offline) as (_ & _ & H & _).
    destruct (H "doc-789" (Exn ConnectionError "Connection refused")
                eq_refl eq_refl eq_refl eq_refl) as (E & _). exact E.
  - destruct (@main_exit_behavior runtime ask_stats offline) as (_ & _ & _ & H).
    destruct (H (Exn ConnectionError "Connection refused") eq_refl eq_refl eq_refl)
      as (E & _). exact E.
Defined.

(** * More properties on the examples *)

(** X2 on the request for [doc-123] while S3 denies the call. *)
Lemma lambda_handler_storage_failure_witness :
  fst (lambda_handler runtime no_metrics event_doc123 s3_down)
  = Ret (internal_error runtime
           "An error occurred (AccessDenied) when calling the PutObject operation")
  /\ LambdaHandler.store (snd (lambda_handler runtime no_metrics event_doc123 s3_down)) = [].
Proof.
  destruct (@lambda_handler_storage_failure
              runtime no_metrics event_doc123 doc123 doc123_text s3_down
              (ClientError,
               "An error occurred (AccessDenied) when calling the PutObject operation"))
    as (w' & E & Hs & _).
  - reflexivity.
  - reflexivity.
  - reflexivity.
  - reflexivity.
  - reflexivity.
  - rewrite E. split; [reflexivity | exact Hs].
Defined.

(** X3 on the body [[]]. *)
Lemma lambda_handler_non_object_body_witness :
  fst (lambda_handler runtime_more no_metrics event_list calm)
  = Ret (internal_error runtime_more "'list' object has no attribute 'get'").
Proof.
  destruct (@lambda_handler_non_object_body
              runtime_more no_metrics event_list "[]" (VList []) calm)
    as (w' & E & _).
  - reflexivity.
  - reflexivity.
  - reflexivity.
  - rewrite E. reflexivity.
Defined.

(** X4 on the event whose body is [null]. *)
Lemma lambda_handler_non_string_body_witness :
  fst (lambda_handler runtime no_metrics event_null_body calm)
  = Ret (internal_error runtime
           "the JSON object must be str, bytes or bytearray, not NoneType").
Proof.
  destruct (@lambda_handler_non_string_body
              runtime no_metrics event_null_body VNone calm)
    as (w' & E & _).
  - reflexivity.
  - reflexivity.
  - rewrite E. reflexivity.
Defined.

(** X5 on the body whose [document_id] is the number zero. *)
Lemma lambda_handler_refuses_iff_falsy_witness :
  fst (lambda_handler runtime_more no_metrics event_zero_id calm)
  = Ret (bad_request runtime_more).
Proof.
  apply (@lambda_handler_refuses_iff_falsy
           runtime_more no_metrics event_zero_id zero_id zero_id_text calm).
  - reflexivity.
  - reflexivity.
  - reflexivity.
Defined.

(** X8 on two analyses of [doc-123] a quarter of a second apart. *)
Lemma analysis_id_same_second_witness :
  exists (id : string) (r1 r2 : pydict),
    fst (LambdaHandler.analyze_document runtime (VStr "doc-123") (VStr "contract") calm)
    = Ret (VDict r1)
    /\ fst (LambdaHandler.analyze_document runtime (VStr "doc-123") (VStr "invoice")
              a_moment_later) = Ret (VDict r2)
    /\ dict_lookup "analysis_id" r1 = Some (VStr id)
    /\ dict_lookup "analysis_id" r2 = Some (VStr id).
Proof.
  apply (@analysis_id_same_second runtime (VStr "doc-123") (VStr "contract")
           (VStr "invoice") calm a_moment_later).
  reflexivity.
Defined.

(** X9 on the request for [doc-7] with a configured bucket. *)
Lemma lambda_handler_location_names_stored_object_witness :
  exists (body : pydict) (o : s3_object),
    LambdaHandler.store (snd (lambda_handler runtime_more no_metrics event_typed_doc calm))
    = [o]
    /\ Bucket o = "staging-results"
    /\ dict_lookup "result_location" body
       = Some (VStr ("s3://staging-results/" ++ Key o)).
Proof.
  destruct (@lambda_handler_location_names_stored_object
              runtime_more no_metrics event_typed_doc typed_doc typed_doc_text calm)
    as (body & o & w' & E & Hs & Hb & Hl).
  - reflexivity.
  - reflexivity.
  - reflexivity.
  - reflexivity.
  - exists body, o. rewrite E. cbn [snd]. rewrite Hs.
    split; [reflexivity|]. split; [exact Hb|]. rewrite Hl, Hb. reflexivity.
Defined.

(** X10 on the request for [doc-123]. *)
Lemma lambda_handler_reports_stored_metrics_witness :
  exists (stored reported : pydict),
    map fst reported = ["generation_rate"; "latency_p50"; "latency_p95"; "latency_p99"]
    /\ dict_lookup "generation_rate" reported = dict_lookup "docs_per_hour" stored
    /\ dict_lookup "docs_per_day" stored <> None.
Proof.
  destruct (@lambda_handler_reports_stored_metrics
              runtime no_metrics event_doc123 doc123 doc123_text calm)
    as (body & result & stored & reported & o & w' & _ & _ & _ & _ & _ & Hk & Hg & _ & _ & _ & Hd).
  - reflexivity.
  - reflexivity.
  - reflexivity.
  - reflexivity.
  - exists stored, reported. repeat split; assumption.
Defined.


(** X12 on a body with a [document_type] and on one without. *)
Lemma lambda_handler_document_type_default_witness :
  (exists result : pydict,
     dict_lookup "document_type" result = Some (VStr "invoice"))
  /\ (exists result : pydict,
        dict_lookup "document_type" result = Some (VStr "contract")).
Proof.
  split.
  - destruct (@lambda_handler_document_type_default
                runtime_more no_metrics event_typed_doc typed_doc typed_doc_text calm
                eq_refl eq_refl eq_refl)
      as (result & key & o & w' & _ & _ & _ & H).
    exists result. apply H. reflexivity.
  - destruct (@lambda_handler_document_type_default
                runtime_more no_metrics event_bare_doc bare_doc bare_doc_text calm
                eq_refl eq_refl eq_refl)
      as (result & key & o & w' & _ & _ & H & _).
    exists result. apply H. reflexivity.
Defined.

(** X14 on a server that answers 404 and on one that answers 302. *)
Lemma analyze_document_by_status_witness :
  fst (AnalyzeCli.analyze_document api (VStr "doc-1") (VStr "contract") not_found)
  = Ret VNone
  /\ fst (AnalyzeCli.analyze_document api (VStr "doc-1") (VStr "contract") redirected)
     = Ret (VDict [("moved", VBool true)]).
Proof.
  split.
  - destruct (@analyze_document_by_status api (VStr "doc-1") (VStr "contract") not_found
                (AnalyzeCli.mkResponse 404 "Not Found"
                   (Ret (VDict [("message", VStr "no such route")]))) eq_refl)
      as (H & _).
    destruct (H eq_refl) as (rest & t & E & _). exact E.
  - destruct (@analyze_document_by_status api (VStr "doc-1") (VStr "contract") redirected
                (AnalyzeCli.mkResponse 302 "Found" (Ret (VDict [("moved", VBool true)])))
                eq_refl)
      as (_ & H).
    destruct (H eq_refl (VDict [("moved", VBool true)]) eq_refl) as (q & E).
    rewrite E. reflexivity.
Defined.

(** X15 on the batch [a], [b], [c] whose second request breaks. *)
Lemma batch_analyze_aborts_witness :
  exists requests,
    fst (batch_analyze runtime api (VList abc) (VStr "contract") second_breaks)
    = Raise (Exn Exception "API Error")
    /\ sent (AnalyzeCli.trace
               (snd (batch_analyze runtime api (VList abc) (VStr "contract") second_breaks)))
       = requests
    /\ map requested_id requests = [Some (VStr "a"); Some (VStr "b")].
Proof.
  destruct (@batch_analyze_aborts runtime api [VStr "a"] [VStr "c"] (VStr "b")
              (VStr "contract") second_breaks (Exn Exception "API Error"))
    as (requests & w' & E & Hs & Hr).
  - repeat constructor.
  - reflexivity.
  - reflexivity.
  - exists requests. change ([VStr "a"] ++ VStr "b" :: [VStr "c"])%list with abc in E.
    rewrite E. repeat split; assumption.
Defined.

(** X16 on the batch [a], [b], [c] whose second request fails. *)
Lemma batch_analyze_effects_witness :
  map (fun e => match e with Stdout _ => "out" | Sent _ => "request" | Stderr _ => "err" end)
      (AnalyzeCli.trace
         (snd (batch_analyze runtime api (VList abc) (VStr "contract") second_fails)))
  = ["out"; "request"; "out"; "request"; "err"; "out"; "request"].
Proof.
  rewrite (@batch_analyze_effects runtime api abc (VStr "contract") second_fails).
  - reflexivity.
  - repeat constructor.
Defined.

(** X18 on a server that answers [{}] and on one that answers an object. *)
Lemma main_prints_truthy_result_witness :
  (exists r, AnalyzeCli.trace (snd (main runtime analyze_doc789 empty_answers)) = [Sent r])
  /\ (exists r, AnalyzeCli.trace (snd (main runtime ask_stats redirected))
                = [Sent r; Stdout (json_dumps runtime (Some 2%nat)
                                     (VDict [("moved", VBool true)]))]).
Proof.
  split.
  - destruct (@main_prints_truthy_result runtime analyze_doc789 empty_answers (VDict []))
      as (_ & r & E).
    + left. exists "doc-789". repeat split; reflexivity.
    + exists r. exact E.
  - destruct (@main_prints_truthy_result runtime ask_stats redirected
                (VDict [("moved", VBool true)]))
      as (_ & r & E).
    + right. split; reflexivity.
    + exists r. exact E.
Defined.

(** X19 on a batch file that does not exist and on one that holds 42. *)
Lemma main_batch_unusable_file_witness :
  exit_status (fst (main runtime_more batch_from_file offline)) = 1%Z
  /\ main runtime_more batch_from_file (with_file "ids.json" "42" offline)
     = (Raise (Exn TypeError "'int' object is not iterable"),
        with_file "ids.json" "42" offline).
Proof.
  split.
  - destruct (@main_batch_unusable_file runtime_more batch_from_file offline "ids.json"
                eq_refl eq_refl) as (H & _).
    rewrite (H _ eq_refl). reflexivity.
  - destruct (@main_batch_unusable_file runtime_more batch_from_file
                (with_file "ids.json" "42" offline) "ids.json" eq_refl eq_refl)
      as (_ & _ & H).
    destruct (H "42" (VInt 42) eq_refl eq_refl eq_refl) as (E & _). exact E.
Defined.

(** X20 on the batch file [a], [b], [c] with no server listening. *)
Lemma main_batch_prints_results_witness :
  exit_status (fst (main runtime_more batch_from_file
                      (with_file "ids.json" abc_text offline))) = 0%Z
  /\ exists t,
       AnalyzeCli.trace (snd (main runtime_more batch_from_file
                                (with_file "ids.json" abc_text offline)))
       = (t ++ [Stdout "[]"])%list.
Proof.
  destruct (@main_batch_prints_results runtime_more batch_from_file
              (with_file "ids.json" abc_text offline) "ids.json" abc_text abc)
    as (H0 & t & Ht).
  - reflexivity.
  - reflexivity.
  - reflexivity.
  - reflexivity.
  - repeat constructor.
  - split; [exact H0|]. exists t. rewrite Ht. reflexivity.
Defined.

(** C10 on a body that is not JSON: no response but the exception of
    CloudWatch while CloudWatch throttles, the 500 while it does not; and
    the 400 for the event with no body, also while CloudWatch throttles. *)
Lemma lambda_handler_undecodable_body_outcome_witness :
  fst (lambda_handler runtime no_metrics event_garbage cloudwatch_down)
  = Raise (Exn ClientError
             "An error occurred (Throttling) when calling the PutMetricData operation")
  /\ (exists headers body,
        fst (lambda_handler runtime no_metrics event_garbage calm)
        = Ret (VDict [("statusCode", VInt 500); ("headers", headers); ("body", body)]))
  /\ fst (lambda_handler runtime no_metrics [] cloudwatch_down)
     = Ret (VDict [("statusCode", VInt 400); ("body", VStr missing_document_id_body)]).
Proof.
  split; [|split].
  - destruct (@lambda_handler_undecodable_body_outcome
                runtime no_metrics event_garbage cloudwatch_down) as (H500 & _).
    destruct (H500 "not json" eq_refl eq_refl) as (w' & E & _).
    rewrite E. reflexivity.
  - destruct (@lambda_handler_undecodable_body_outcome
                runtime no_metrics event_garbage calm) as (H500 & _).
    destruct (H500 "not json" eq_refl eq_refl) as (w' & E & _).
    rewrite E. eexists _, _. reflexivity.
  - destruct (@lambda_handler_undecodable_body_outcome
                runtime no_metrics [] cloudwatch_down) as (_ & H400).
    destruct (H400 eq_refl eq_refl) as (w' & E).
    rewrite E. reflexivity.
Defined.
